(** * Opposition AI Kenya: the feed-ingestion-and-fallback pipeline

    A shallow embedding of [agents/opposition_agent.py]: [fetch_feed] and
    [analyze_government_news].  Python dictionaries are finite maps from
    strings to strings, the outside world (network, cache file, AI service,
    clock, console) is an explicit state threaded through a small
    state-and-exception monad, and [try]/[except] is a combinator of that
    monad. *)

From Stdlib Require Import ZArith Lia.
From stdpp Require Import base option list strings gmap.

Open Scope Z_scope.
Open Scope string_scope.
Open Scope list_scope.

(** ** Data *)

(** [response.content]: the raw bytes of an HTTP body. *)
Abbreviation bytes := (list Byte.byte).

(** A feed entry and an article are Python dicts with string keys and
    string values; [entry.get(k, d)] and [art[k]] are the lookups below. *)
Abbreviation entry := (gmap string string).
Abbreviation article := (gmap string string).

(** The part of a [feedparser.FeedParserDict] the agent reads. *)
Record FeedParserDict := { entries : list entry }.

(** The dict returned by [analyze_government_news]. *)
Record Report := {
  status : string;
  timestamp : string;
  analyses : list (gmap string string)
}.

(** The exceptions the modelled calls can raise; all are subclasses of
    Python's [Exception]. *)
Inductive exn :=
| SSLError (msg : string)          (* requests.exceptions.SSLError *)
| RequestException (msg : string)  (* any other failure of requests.get *)
| ValueError (msg : string)        (* time.sleep with a negative length *)
| FileNotFoundError (msg : string) (* open(.., "r") on a missing file *)
| JSONDecodeError (msg : string)   (* json.load on an undecodable file *)
| KeyError (key : string)          (* d[k] with k not in d *)
| APIError (msg : string).         (* client.models.generate_content *)

(** [str(e)] as interpolated into the f-strings. *)
Definition exn_str (e : exn) : string :=
  match e with
  | SSLError m | RequestException m | ValueError m
  | FileNotFoundError m | JSONDecodeError m | APIError m => m
  | KeyError k => "'" +:+ k +:+ "'"
  end.

(** What one [requests.get] does: answer with a status and a body, or fail
    with an SSL error, or fail in another way (timeout, refused, DNS). *)
Inductive attempt :=
| Response (status_code : Z) (content : bytes)
| SslFailure (msg : string)
| TransportFailure (msg : string).

(** What one [generate_content] call does: answer with a response whose
    [text] attribute may be missing or empty, or raise. *)
Inductive ai_reply :=
| Completion (text : option string)
| Refusal (msg : string).

(** The file [cache/news_cache.json]: missing, present but not decodable
    as JSON, or holding a JSON array of objects with string values. *)
Inductive cache_file :=
| Missing
| Corrupt
| Stored (batch : list article).

(** The lines the agent prints, one constructor per [print] call. *)
Inductive message :=
| WarnHttp (status_code : Z) (url : string)
| WarnSsl (url : string) (err : string)
| WarnFetch (url : string) (attempt retries : Z) (err : string)
| WarnGaveUp (retries : Z) (url : string)
| WarnUsingCache
| WarnNoLiveFeeds.

(** Observable actions, in the order they happen. *)
Inductive event :=
| EGet (url : string)
| ESleep (seconds : Z)
| EPrint (msg : message).

(** The world: the network answers the n-th request by [net n url], the
    AI service answers the n-th call by [ai n model prompt]. *)
Record World := {
  net : nat → string → attempt;
  requests : nat;
  cache : cache_file;
  ai : nat → string → string → ai_reply;
  ai_calls : nat;
  now : string;
  trace : list event
}.

(** ** The monad *)

Inductive result (A : Type) :=
| Returned (a : A)
| Raised (e : exn).
Arguments Returned {A} a.
Arguments Raised {A} e.

Definition M (A : Type) : Type := World → result A * World.

#[export] Instance M_ret : MRet M := λ A a w, (Returned a, w).

#[export] Instance M_bind : MBind M := λ A B f m w,
  match m w with
  | (Returned a, w') => f a w'
  | (Raised e, w') => (Raised e, w')
  end.

Definition raise {A} (e : exn) : M A := λ w, (Raised e, w).

(** [try: body except Exception as e: handler e]. *)
Definition try_except {A} (body : M A) (handler : exn → M A) : M A := λ w,
  match body w with
  | (Returned a, w') => (Returned a, w')
  | (Raised e, w') => handler e w'
  end.

Definition emit (ev : event) : M unit := λ w,
  (Returned tt,
   {| net := net w; requests := requests w; cache := cache w; ai := ai w;
      ai_calls := ai_calls w; now := now w; trace := trace w ++ [ev] |}).

(** ** The calls into the outside world *)

Definition print (msg : message) : M unit := emit (EPrint msg).

(** [requests.get(url, timeout=10, headers=.., verify=True)]. *)
Definition requests_get (url : string) : M (Z * bytes) := λ w,
  let w' := {| net := net w; requests := S (requests w); cache := cache w;
               ai := ai w; ai_calls := ai_calls w; now := now w;
               trace := trace w ++ [EGet url] |} in
  match net w (requests w) url with
  | Response status_code content => (Returned (status_code, content), w')
  | SslFailure msg => (Raised (SSLError msg), w')
  | TransportFailure msg => (Raised (RequestException msg), w')
  end.

(** [time.sleep(delay)]. *)
Definition time_sleep (delay : Z) : M unit :=
  if decide (delay < 0)
  then raise (ValueError "sleep length must be non-negative")
  else emit (ESleep delay).

(** [NEWS_CACHE_FILE.exists()]. *)
Definition cache_exists : M bool := λ w,
  (Returned (match cache w with Missing => false | _ => true end), w).

(** [with open(NEWS_CACHE_FILE, "r") as f: json.load(f)]. *)
Definition json_load_cache : M (list article) := λ w,
  match cache w with
  | Missing => (Raised (FileNotFoundError "cache/news_cache.json"), w)
  | Corrupt => (Raised (JSONDecodeError "Expecting value"), w)
  | Stored batch => (Returned batch, w)
  end.

(** [with open(NEWS_CACHE_FILE, "w") as f: json.dump(articles, f, ..)]:
    the file is replaced as a whole. *)
Definition json_dump_cache (articles : list article) : M unit := λ w,
  (Returned tt,
   {| net := net w; requests := requests w; cache := Stored articles;
      ai := ai w; ai_calls := ai_calls w; now := now w; trace := trace w |}).

(** [client.models.generate_content(model=.., contents=..)]. *)
Definition generate_content (model contents : string) : M (option string) := λ w,
  let w' := {| net := net w; requests := requests w; cache := cache w;
               ai := ai w; ai_calls := S (ai_calls w); now := now w;
               trace := trace w |} in
  match ai w (ai_calls w) model contents with
  | Completion text => (Returned text, w')
  | Refusal msg => (Raised (APIError msg), w')
  end.

(** [datetime.datetime.now().isoformat()]. *)
Definition now_isoformat : M string := λ w, (Returned (now w), w).

(** [d[key]]. *)
Definition getitem (d : gmap string string) (key : string) : M string :=
  match d !! key with
  | Some v => mret v
  | None => raise (KeyError key)
  end.

(** [d.get(key, default)]. *)
Definition dict_get (d : gmap string string) (key default : string) : string :=
  match d !! key with
  | Some v => v
  | None => default
  end.

(** [range(n)]. *)
Definition range (n : Z) : list Z := Z.of_nat <$> seq 0 (Z.to_nat n).

(** ** The host: web endpoints and command line

    [app.py] and [main.py] run the agent next to a second file,
    [analysis_output.json], the lines typed on standard input and the
    lines printed by [main]. *)

(** The file [analysis_output.json]: missing, not decodable, or holding
    the report that was dumped into it. *)
Inductive output_file :=
| NoOutput
| BadOutput
| Output (report : Report).

(** What the host code can raise beyond the exceptions of the agent. *)
Inductive host_exn :=
| AgentError (e : exn)
| IndexError (msg : string)        (* l[-1] on an empty list *)
| EOFError (msg : string)          (* input() at the end of the input *)
| HTTPException (msg : string)     (* request.get_json() on a bad body *)
| AttributeError (attribute : string). (* x.get or x.strip that x lacks;
                                          the type named in the message is
                                          left out *)

Definition host_exn_str (e : host_exn) : string :=
  match e with
  | AgentError e => exn_str e
  | IndexError m | EOFError m | HTTPException m => m
  | AttributeError a => "object has no attribute '" +:+ a +:+ "'"
  end.

(** The lines [main] prints, one constructor per [print] or prompt. *)
Inductive out :=
| OutActivate
| OutCommandPrompt
| OutRunning
| OutFetching
| OutHeader
| OutArticle (i : nat) (title : string)
| OutAnalysis (text : string)
| OutSource (source : string)
| OutRule
| OutSaved
| OutSaveError (err : string)
| OutNoAnalyses
| OutAskPrompt
| OutGoodbye
| OutProcessing
| OutResponse
| OutAnswer (text : string)
| OutDashes.

Record Host := {
  world : World;
  analysis_output : output_file;
  stdin : list string;
  stdout : list out
}.

Inductive outcome (A : Type) :=
| Done (a : A)
| Failed (e : host_exn).
Arguments Done {A} a.
Arguments Failed {A} e.

Definition H (A : Type) : Type := Host → outcome A * Host.

#[export] Instance H_ret : MRet H := λ A a h, (Done a, h).

#[export] Instance H_bind : MBind H := λ A B f m h,
  match m h with
  | (Done a, h') => f a h'
  | (Failed e, h') => (Failed e, h')
  end.

Definition fail {A} (e : host_exn) : H A := λ h, (Failed e, h).

(** [try: body except Exception as e: handler e] in host code. *)
Definition host_try {A} (body : H A) (handler : host_exn → H A) : H A := λ h,
  match body h with
  | (Done a, h') => (Done a, h')
  | (Failed e, h') => handler e h'
  end.

Definition set_world (w : World) (h : Host) : Host :=
  {| world := w; analysis_output := analysis_output h; stdin := stdin h;
     stdout := stdout h |}.

(** A call into the agent module from host code. *)
Definition lift {A} (m : M A) : H A := λ h,
  match m (world h) with
  | (Returned a, w) => (Done a, set_world w h)
  | (Raised e, w) => (Failed (AgentError e), set_world w h)
  end.

(** [os.path.exists("analysis_output.json")]. *)
Definition output_exists : H bool := λ h,
  (Done (match analysis_output h with NoOutput => false | _ => true end), h).

(** [with open("analysis_output.json", "r") as f: json.load(f)]. *)
Definition json_load_output : H Report := λ h,
  match analysis_output h with
  | NoOutput =>
      (Failed (AgentError (FileNotFoundError "analysis_output.json")), h)
  | BadOutput => (Failed (AgentError (JSONDecodeError "Expecting value")), h)
  | Output report => (Done report, h)
  end.

(** [with open("analysis_output.json", "w") as f: json.dump(result, f, ..)]. *)
Definition json_dump_output (report : Report) : H unit := λ h,
  (Done tt,
   {| world := world h; analysis_output := Output report; stdin := stdin h;
      stdout := stdout h |}).

(** [print(..)] in [main]. *)
Definition say (line : out) : H unit := λ h,
  (Done tt,
   {| world := world h; analysis_output := analysis_output h;
      stdin := stdin h; stdout := stdout h ++ [line] |}).

(** [input(prompt)]: the prompt is printed, the next line is read. *)
Definition input (prompt : out) : H string := λ h,
  match stdin h with
  | [] =>
      (Failed (EOFError "EOF when reading a line"),
       {| world := world h; analysis_output := analysis_output h;
          stdin := []; stdout := stdout h ++ [prompt] |})
  | line :: rest =>
      (Done line,
       {| world := world h; analysis_output := analysis_output h;
          stdin := rest; stdout := stdout h ++ [prompt] |})
  end.

(** [l[-1]]. *)
Definition last_item (l : list string) : H string :=
  match last l with
  | Some x => mret x
  | None => fail (IndexError "list index out of range")
  end.

(** Library functions of Python the host code calls on strings:
    [datetime.strftime("%A, %d %B %Y")] applied to the instant whose
    [isoformat()] is given, [str.split()], [str.strip()] and
    [str.lower()]. *)
Record Builtins := {
  long_date : string → string;
  str_split : string → list string;
  str_strip : string → string;
  str_lower : string → string
}.

(** A Flask request, as far as the endpoints read it: the method and the
    JSON object of the body. *)
Inductive http_method := GET | POST.

Record Request := {
  method : http_method;
  json : gmap string string
}.

(** A value in the JSON object posted to [/ask]: a string, or any other
    JSON value (a number, a boolean, null, a list, an object). *)
Inductive json_field :=
| FieldString (s : string)
| FieldOther.

(** The body posted to [/ask], as [request.get_json()] sees it: a body
    that Flask refuses to decode, a JSON object, or another JSON value
    (null, a list, a number, a string). *)
Inductive payload :=
| PayloadInvalid
| PayloadOther
| PayloadObject (fields : gmap string json_field).

(** [request.get_json()]: an undecodable body makes Flask raise. *)
Definition get_json (posted : payload) : H payload :=
  match posted with
  | PayloadInvalid => fail (HTTPException "400 Bad Request")
  | _ => mret posted
  end.

(** [data.get(key, default)], which only a dict has. *)
Definition field_get (data : payload) (key : string) (default : json_field)
  : H json_field :=
  match data with
  | PayloadObject fields =>
      mret (match fields !! key with
            | Some value => value
            | None => default
            end)
  | _ => fail (AttributeError "get")
  end.

(** [value.strip()], which only a string has. *)
Definition field_strip (py : Builtins) (value : json_field) : H string :=
  match value with
  | FieldString s => mret (str_strip py s)
  | FieldOther => fail (AttributeError "strip")
  end.

(** What [jsonify] is given. *)
Inductive body :=
| JsonDict (d : gmap string string)
| JsonReport (report : Report)
| JsonCached (status message : string) (analyses : list article).

(** A view's answer: the body and the HTTP status code. *)
Abbreviation response := (body * Z)%type.

(** ** Sample worlds *)

(** A toy feed format: one entry per byte of the body, titled by it. *)
Definition sample_parse (content : bytes) : FeedParserDict :=
  {| entries :=
       (λ b, {[ "title" := String (Ascii.ascii_of_byte b) "" ]}) <$> content |}.

(** Every request fails. *)
Definition sample_net_down : nat → string → attempt :=
  λ _ _, TransportFailure "unreachable".

(** The first source has 3 entries, the third has 20, the others are
    unreachable. *)
Definition sample_net_mixed : nat → string → attempt :=
  λ _ url,
    if decide (url = "https://www.standardmedia.co.ke/kenya/rss.xml")
    then Response 200 (replicate 3 Byte.x61)
    else if decide (url = "https://www.theeastafrican.co.ke/rss.xml")
    then Response 200 (replicate 20 Byte.x62)
    else TransportFailure "unreachable".


(** The first call answers, the second raises, the later ones answer
    without text. *)
Definition sample_ai : nat → string → string → ai_reply :=
  λ n _ _, match n with
           | 0%nat => Completion (Some "analysis")
           | 1%nat => Refusal "quota exceeded"
           | _ => Completion None
           end.

Definition sample_world (network : nat → string → attempt) (c : cache_file)
  : World :=
  {| net := network; requests := 0; cache := c; ai := sample_ai;
     ai_calls := 0; now := "2025-01-01T00:00:00"; trace := [] |}.

Definition sample_article (title : string) : article :=
  {[ "title" := title; "link" := "https://example.org/" +:+ title;
     "summary" := "about " +:+ title ]}.

Definition sample_batch : list article :=
  sample_article <$> ["a"; "b"; "c"; "d"].

(** What the sources yield in [sample_net_mixed]. *)
Definition sample_results : list (option FeedParserDict) :=
  [Some (sample_parse (replicate 3 Byte.x61)); None;
   Some (sample_parse (replicate 20 Byte.x62)); None; None; None; None; None].

(** The report for [sample_batch] analysed by [sample_ai]. *)
Definition sample_report : Report :=
  {| status := "success";
     timestamp := "2025-01-01T00:00:00";
     analyses :=
       [ {[ "title" := "a"; "analysis" := "analysis";
            "source" := "https://example.org/a" ]};
         {[ "title" := "b";
            "analysis" := "⚠️ AI generation error: quota exceeded";
            "source" := "https://example.org/b" ]};
         {[ "title" := "c"; "analysis" := "⚠️ No analysis generated.";
            "source" := "https://example.org/c" ]};
         {[ "title" := "d"; "analysis" := "⚠️ No analysis generated.";
            "source" := "https://example.org/d" ]} ] |}.

(** Plain versions of the string functions, on ASCII text. *)
Fixpoint sample_lstrip (s : string) : string :=
  match s with
  | String a rest => if Ascii.is_space a then sample_lstrip rest else s
  | EmptyString => EmptyString
  end.

Definition sample_strip (s : string) : string :=
  String.rev (sample_lstrip (String.rev (sample_lstrip s))).

Definition sample_lower_ascii (a : Ascii.ascii) : Ascii.ascii :=
  let n := Ascii.nat_of_ascii a in
  if bool_decide (65 ≤ n ≤ 90)%nat then Ascii.ascii_of_nat (n + 32) else a.

Fixpoint sample_lower (s : string) : string :=
  match s with
  | String a rest => String (sample_lower_ascii a) (sample_lower rest)
  | EmptyString => EmptyString
  end.

Definition sample_py : Builtins :=
  {| long_date := λ _, "Wednesday, 01 January 2025";
     str_split := String.words;
     str_strip := sample_strip;
     str_lower := sample_lower |}.

(** A clock whose date renders as the empty string. *)
Definition sample_py_blank_date : Builtins :=
  {| long_date := λ _, "";
     str_split := String.words;
     str_strip := sample_strip;
     str_lower := sample_lower |}.

Definition sample_host (w : World) (o : output_file) (lines : list string)
  : Host :=
  {| world := w; analysis_output := o; stdin := lines; stdout := [] |}.

(** A cached batch whose second article has no summary. *)
Definition sample_broken_batch : list article :=
  [ sample_article "a";
    {[ "title" := "b"; "link" := "https://example.org/b" ]} ].

Definition sample_request (m : http_method) (key value : string) : Request :=
  {| method := m; json := {[ key := value ]} |}.

(** Lines typed after the command: two questions around a blank line. *)
Definition sample_session : list string :=
  ["What changed?"; "  "; "Who pays?"].

Section Agent.

(** [feedparser.parse]: it reports malformed input through an empty entry
    list, never through an exception. *)
Variable feedparser_parse : bytes → FeedParserDict.

(** ** fetch_feed *)

(** One iteration of the [try] statement; [Some feed] is the [return]
    inside it, [None] falls through to the [time.sleep] below. *)
Definition fetch_attempt (url : string) (retries attempt : Z)
  : M (option FeedParserDict) :=
  try_except
    (response ← requests_get url;
     if decide (response.1 = 200)
     then mret (Some (feedparser_parse response.2))
     else print (WarnHttp response.1 url);; mret None)
    (λ e, match e with
          | SSLError ssl_err => print (WarnSsl url ssl_err);; mret None
          | _ => print (WarnFetch url (attempt + 1) retries (exn_str e));;
                 mret None
          end).

Fixpoint fetch_loop (url : string) (retries delay : Z) (attempts : list Z)
  : M (option FeedParserDict) :=
  match attempts with
  | [] => print (WarnGaveUp retries url);; mret None
  | attempt :: rest =>
      got ← fetch_attempt url retries attempt;
      match got with
      | Some feed => mret (Some feed)
      | None => time_sleep delay;; fetch_loop url retries delay rest
      end
  end.

Definition fetch_feed (url : string) (retries delay : Z)
  : M (option FeedParserDict) :=
  fetch_loop url retries delay (range retries).

(** ** analyze_government_news: gathering the articles *)

Definition feeds : list string :=
  [ "https://www.standardmedia.co.ke/kenya/rss.xml";
    "https://rss.nation.africa/rss.xml";
    "https://www.theeastafrican.co.ke/rss.xml";
    "https://www.kbc.co.ke/feed/";
    "https://www.msn.com/en-xl/feeds/news";
    "https://allafrica.com/tools/headlines/rdf/kenya/headlines.rdf";
    "https://www.bbc.co.uk/feeds/rss/africa.xml";
    "https://www.aljazeera.com/xml/rss/all.xml" ].

(** The dict appended for one feed entry. *)
Definition article_of_entry (e : entry) : article :=
  {[ "title" := dict_get e "title" "Untitled";
     "link" := dict_get e "link" "No link";
     "summary" := dict_get e "summary"
                    (dict_get e "description" "No summary available.") ]}.

(** [for entry in feed.entries[:5]: articles.append({..})]. *)
Definition append_entries (articles : list article) (es : list entry)
  : list article :=
  foldl (λ acc e, acc ++ [article_of_entry e]) articles (take 5 es).

(** [for url in feeds: ..], with the default [retries=3, delay=5].  A
    parsed feed is a dict with keys, hence true in [if feed and
    feed.entries]; the test is on [None] and on the entry list. *)
Fixpoint collect_feeds (urls : list string) (articles : list article)
  : M (list article) :=
  match urls with
  | [] => mret articles
  | url :: rest =>
      feed ← fetch_feed url 3 5;
      collect_feeds rest
        match feed with
        | Some f =>
            match entries f with
            | [] => articles
            | _ => append_entries articles (entries f)
            end
        | None => articles
        end
  end.

(** The loop over the feeds followed by [articles = articles[:15]]. *)
Definition live_articles : M (list article) :=
  articles ← collect_feeds feeds [];
  mret (take 15 articles).

Definition fallback_article : article :=
  {[ "title" := "Government launches new affordable housing project";
     "link" := "https://example.com/fallback";
     "summary" := "The Kenyan government has announced a new affordable housing project aimed at urban youth and low-income families." ]}.

(** [if not articles and NEWS_CACHE_FILE.exists(): ..]. *)
Definition cache_fallback (articles : list article) : M (list article) :=
  match articles with
  | [] =>
      present ← cache_exists;
      if present : bool
      then print WarnUsingCache;; json_load_cache
      else mret articles
  | _ => mret articles
  end.

(** [if not articles: ..]. *)
Definition default_fallback (articles : list article) : M (list article) :=
  match articles with
  | [] => print WarnNoLiveFeeds;; mret [fallback_article]
  | _ => mret articles
  end.

(** The first part of [analyze_government_news], up to and including the
    write of the cache file: the value of [articles] handed to the
    analysis loop. *)
Definition aggregate : M (list article) :=
  articles ← live_articles;
  articles ← cache_fallback articles;
  articles ← default_fallback articles;
  json_dump_cache articles;;
  mret articles.

(** ** analyze_government_news: the analysis loop *)

Definition prompt_head : string := "
You are **Opposition AI Kenya**, a civic digital agent helping citizens analyze government actions.

Analyze this article through 5 lenses:

1️⃣ Checks & Balances – Any misuse of power?
2️⃣ Critique & Challenge – What risks exist?
3️⃣ Citizen Impact – Who benefits or suffers?
4️⃣ Accountability – Are promises or transparency lacking?
5️⃣ Alternative Proposals – Suggest better realistic actions.
                                                 
Article:
Title: ".

Definition prompt_tail : string := "

Be factual, concise, and aware of the Kenyan context.
".

Definition newline : string := "
".

Definition analysis_prompt (title summary link : string) : string :=
  prompt_head +:+ title +:+ newline +:+ "Summary: " +:+ summary
    +:+ newline +:+ "Source: " +:+ link +:+ prompt_tail.

(** [getattr(resp, "text", None) or default]. *)
Definition text_or (text : option string) (default : string) : string :=
  match text with
  | None | Some "" => default
  | Some t => t
  end.

(** The body of [for art in articles:]: the prompt is built before the
    [try], so a missing key is not caught. *)
Definition analyse_article (art : article) : M (gmap string string) :=
  title ← getitem art "title";
  summary ← getitem art "summary";
  link ← getitem art "link";
  let prompt := analysis_prompt title summary link in
  try_except
    (resp ← generate_content "gemini-2.0-flash" prompt;
     let ai_text := text_or resp "⚠️ No analysis generated." in
     title ← getitem art "title";
     source ← getitem art "link";
     mret {[ "title" := title; "analysis" := ai_text; "source" := source ]})
    (λ e,
     title ← getitem art "title";
     source ← getitem art "link";
     mret {[ "title" := title;
             "analysis" := "⚠️ AI generation error: " +:+ exn_str e;
             "source" := source ]}).

Fixpoint analyse_articles (articles : list article)
    (analyses : list (gmap string string)) : M (list (gmap string string)) :=
  match articles with
  | [] => mret analyses
  | art :: rest =>
      item ← analyse_article art;
      analyse_articles rest (analyses ++ [item])
  end.

Definition analyze_government_news : M Report :=
  articles ← aggregate;
  analyses ← analyse_articles articles [];
  stamp ← now_isoformat;
  mret {| status := "success"; timestamp := stamp; analyses := analyses |}.

(** ** citizen_question and policy_recommendation *)

(** [datetime.datetime.now().strftime("%A, %d %B %Y")]. *)
Definition now_long_date (py : Builtins) : M string := λ w,
  (Returned (long_date py (now w)), w).

Definition dquote : string := String (Ascii.ascii_of_byte Byte.x22) "".

Definition question_head : string := "
You are **Opposition AI Kenya**, an intelligent civic assistant that must always respond with current, real-time awareness.

Today's date is **".

Definition question_asks : string := "**.

A Kenyan citizen asks:
".

Definition question_provide : string := "

Provide:
- A factual, up-to-date explanation that reflects Kenya’s current situation (as of ".

Definition question_details : string := ").
- Include recent developments or current government actions if relevant.
- Offer helpful civic context about accountability or transparency.
- Suggest possible citizen or civil-society actions in a simple, human tone.

Be polite, realistic, and speak as if you are guiding a citizen today in ".

Definition question_tail : string := ".
".

Definition question_prompt (current_date question year : string) : string :=
  question_head +:+ current_date +:+ question_asks +:+ dquote +:+ question
    +:+ dquote +:+ question_provide +:+ current_date +:+ question_details
    +:+ year +:+ question_tail.

(** The last hole of the prompt is [current_date.split()[-1]]: it is
    evaluated before the [try], so an empty split is not caught. *)
Definition citizen_question (py : Builtins) (question : string)
  : H (gmap string string) :=
  current_date ← lift (now_long_date py);
  year ← last_item (str_split py current_date);
  let prompt := question_prompt current_date question year in
  lift
    (try_except
       (resp ← generate_content "gemini-2.0-flash" prompt;
        let ai_text := text_or resp "⚠️ No answer generated." in
        mret {[ "answer" := ai_text; "date_used" := current_date ]})
       (λ e,
        mret {[ "answer" := "⚠️ AI generation error: " +:+ exn_str e;
                "date_used" := current_date ]})).

Definition policy_head : string := "
You are 'Opposition AI Kenya' — a civic digital agent.
Based on the following recent government news analyses, provide **3-5 concrete, realistic, and actionable policy recommendations**
for the Kenyan government. Focus on improving transparency, citizen welfare, and economic growth.

Analyses Context:
".

Definition policy_tail : string := "

Respond in clear, concise, citizen-friendly English. Number each recommendation.
".

Definition policy_prompt (context : string) : string :=
  policy_head +:+ context +:+ policy_tail.

Definition policy_recommendation (context : string) : M (gmap string string) :=
  let prompt := policy_prompt context in
  try_except
    (resp ← generate_content "gemini-2.0-flash" prompt;
     let ai_text := text_or resp "⚠️ No recommendation generated." in
     mret {[ "status" := "success"; "recommendations" := ai_text ]})
    (λ e,
     mret {[ "status" := "error";
             "recommendations" := "⚠️ AI error: " +:+ exn_str e ]}).

(** ** app.py *)

(** [/analyze]. *)
Definition analyze_news : H response :=
  host_try
    (result ← lift analyze_government_news;
     json_dump_output result;;
     mret (JsonReport result, 200))
    (λ e,
     present ← lift cache_exists;
     if present : bool
     then
       cached_articles ← lift json_load_cache;
       mret (JsonCached "warning"
               ("⚠️ Live fetch failed: " +:+ host_exn_str e
                  +:+ ". Using cached news.")
               cached_articles, 200)
     else
       mret (JsonDict
               {[ "status" := "error";
                  "message" := "⚠️ Failed to fetch or analyze news: "
                               +:+ host_exn_str e ]}, 500)).

(** [/ask]: the body is read and the question stripped before the
    [try]. *)
Definition ask_question (py : Builtins) (posted : payload) : H response :=
  data ← get_json posted;
  value ← field_get data "question" (FieldString "");
  question ← field_strip py value;
  match question with
  | "" => mret (JsonDict {[ "error" := "Question is required" ]}, 400)
  | _ =>
      host_try
        (answer ← citizen_question py question;
         mret (JsonDict answer, 200))
        (λ e,
         mret (JsonDict
                 {[ "error" := "⚠️ Failed to answer question: "
                               +:+ host_exn_str e ]}, 500))
  end.

(** The context [/recommend] builds from the stored report:
    ["\n".join([art.get("analysis", "") for art in ..])]. *)
Definition joined_analyses (analysis_data : Report) : string :=
  String.concat newline
    ((λ art : gmap string string, dict_get art "analysis" "")
       <$> analyses analysis_data).

(** [/recommend]. *)
Definition recommend_policy_endpoint (py : Builtins) (request : Request)
  : H response :=
  let topic :=
    match method request with
    | POST => str_strip py (dict_get (json request) "topic" "")
    | GET => ""
    end in
  topic ← match topic with
          | "" =>
              present ← output_exists;
              if present : bool
              then
                analysis_data ← json_load_output;
                mret (joined_analyses analysis_data)
              else
                mret "Current government policy and recent news in Kenya."
          | _ => mret topic
          end;
  host_try
    (result ← lift (policy_recommendation topic);
     mret (JsonDict
             {[ "recommendation" :=
                  dict_get result "recommendations"
                    "⚠️ No recommendation generated." ]}, 200))
    (λ e,
     mret (JsonDict
             {[ "error" := "⚠️ Failed to generate policy recommendation: "
                           +:+ host_exn_str e ]}, 500)).

(** ** main.py *)

(** [for i, art in enumerate(analysis_result["analyses"], 1): ..]. *)
Fixpoint print_analyses (i : nat) (items : list (gmap string string))
  : H unit :=
  match items with
  | [] => mret tt
  | art :: rest =>
      title ← lift (getitem art "title");
      say (OutArticle i title);;
      text ← lift (getitem art "analysis");
      say (OutAnalysis text);;
      source ← lift (getitem art "source");
      say (OutSource source);;
      say OutRule;;
      print_analyses (S i) rest
  end.

(** The body of [if command == "start":]. *)
Definition run_analysis : H unit :=
  say OutRunning;;
  say OutFetching;;
  analysis_result ← lift analyze_government_news;
  say OutHeader;;
  match analyses analysis_result with
  | [] => say OutNoAnalyses
  | _ =>
      print_analyses 1 (analyses analysis_result);;
      host_try
        (json_dump_output analysis_result;;
         say OutSaved)
        (λ e, say (OutSaveError (host_exn_str e)))
  end.

(** [while True: ..]: every round reads one line, so [fuel] rounds are
    enough for an input of fewer than [fuel] lines; the result is [true]
    when the loop was left by [break] and [false] when the fuel ran out. *)
Fixpoint question_loop (py : Builtins) (fuel : nat) : H bool :=
  match fuel with
  | O => mret false
  | S fuel =>
      line ← input OutAskPrompt;
      let question := str_strip py line in
      if bool_decide (str_lower py question ∈ ["exit"; "quit"])
      then say OutGoodbye;; mret true
      else
        match question with
        | "" => question_loop py fuel
        | _ =>
            say OutProcessing;;
            response ← citizen_question py question;
            say OutResponse;;
            say (OutAnswer (dict_get response "answer"
                              ("⚠️ No response generated." +:+ newline)));;
            say OutDashes;;
            question_loop py fuel
        end
  end.

Definition main (py : Builtins) : H unit :=
  say OutActivate;;
  line ← input OutCommandPrompt;
  let command := str_lower py (str_strip py line) in
  (if bool_decide (command = "start") then run_analysis else mret tt);;
  pending ← (λ h, (Done (length (stdin h)), h));
  question_loop py (S pending);;
  mret tt.

(** ** Reference definitions used to state the properties *)

(** An attempt fails unless it answers with status 200. *)
Definition failed (a : attempt) : Prop :=
  match a with
  | Response status_code _ => status_code ≠ 200
  | _ => True
  end.

(** The trace without the printed lines: requests and waits only. *)
Definition effects (t : list event) : list event :=
  List.filter (λ ev, match ev with EPrint _ => false | _ => true end) t.

(** [w'] is [w] after [n] more requests that added [t] to the trace, with
    the cache file, the AI service and the clock untouched. *)
Definition net_step (w w' : World) (n : nat) (t : list event) : Prop :=
  net w' = net w ∧ requests w' = (requests w + n)%nat ∧ cache w' = cache w ∧
  ai w' = ai w ∧ ai_calls w' = ai_calls w ∧ now w' = now w ∧
  trace w' = trace w ++ t.

(** The pattern of a run that never succeeds: request, wait, request,
    wait, ... *)
Definition retry_pattern (url : string) (delay : Z) (n : nat) : list event :=
  concat (replicate n [EGet url; ESleep delay]).

(** What the cache fallback, the built-in article and the final write make
    of the live articles [live] when the cache file is [c]. *)
Definition resolve (live : list article) (c : cache_file)
  : result (list article) :=
  match live, c with
  | [], Corrupt => Raised (JSONDecodeError "Expecting value")
  | [], Stored (art :: rest) => Returned (art :: rest)
  | [], _ => Returned [fallback_article]
  | _, _ => Returned live
  end.

(** The feeds fetched one after the other, as the loop does. *)
Fixpoint fetch_all (urls : list string) : M (list (option FeedParserDict)) :=
  match urls with
  | [] => mret []
  | url :: rest =>
      feed ← fetch_feed url 3 5;
      others ← fetch_all rest;
      mret (feed :: others)
  end.

(** The entries a source contributes: none when its fetch failed. *)
Definition live_entries (feed : option FeedParserDict) : list entry :=
  match feed with
  | Some f => entries f
  | None => []
  end.

(** At most five articles per source, in source order then entry order. *)
Definition per_source (results : list (option FeedParserDict))
  : list article :=
  concat ((λ r, article_of_entry <$> take 5 (live_entries r)) <$> results).

(** An article with the three fields the analysis reads. *)
Definition populated (art : article) : Prop :=
  is_Some (art !! "title") ∧ is_Some (art !! "link") ∧
  is_Some (art !! "summary").

(** The analysis text an answer of the AI service ends up as. *)
Definition analysis_text (reply : ai_reply) : string :=
  match reply with
  | Completion text => text_or text "⚠️ No analysis generated."
  | Refusal msg => "⚠️ AI generation error: " +:+ msg
  end.

(** The result for the article at position [i] of a batch analysed from
    the world [w] on. *)
Definition analysis_item (w : World) (i : nat) (art : article)
  : gmap string string :=
  let title := dict_get art "title" "" in
  let summary := dict_get art "summary" "" in
  let link := dict_get art "link" "" in
  {[ "title" := title;
     "analysis" := analysis_text
                     (ai w (ai_calls w + i)%nat "gemini-2.0-flash"
                         (analysis_prompt title summary link));
     "source" := link ]}.

(** The text an answer of the AI service becomes in [citizen_question]. *)
Definition answer_text (reply : ai_reply) : string :=
  match reply with
  | Completion text => text_or text "⚠️ No answer generated."
  | Refusal msg => "⚠️ AI generation error: " +:+ msg
  end.

(** [w'] is [w] after one more call of the AI service, nothing else
    changed. *)
Definition ai_step (w w' : World) : Prop :=
  net w' = net w ∧ requests w' = requests w ∧ cache w' = cache w ∧
  ai w' = ai w ∧ ai_calls w' = S (ai_calls w) ∧ now w' = now w ∧
  trace w' = trace w.

(** An item of a report with its three fields, the analysis not empty. *)
Definition complete (item : gmap string string) : Prop :=
  is_Some (item !! "title") ∧ is_Some (item !! "source") ∧
  ∃ text, item !! "analysis" = Some text ∧ text ≠ "".

(** A line that ends the question loop, and a line that is skipped. *)
Definition quits (py : Builtins) (line : string) : Prop :=
  str_lower py (str_strip py line) ∈ ["exit"; "quit"].

Definition blank (py : Builtins) (line : string) : Prop :=
  str_strip py line = "".

(** The lines of [lines] that are asked to the AI service. *)
Definition asked (py : Builtins) (lines : list string) : list string :=
  List.filter (λ line, negb (bool_decide (str_strip py line = ""))) lines.

(** The text an answer of the AI service becomes in
    [policy_recommendation]. *)
Definition recommendation_text (reply : ai_reply) : string :=
  match reply with
  | Completion text => text_or text "⚠️ No recommendation generated."
  | Refusal msg => "⚠️ AI error: " +:+ msg
  end.

(** [h'] has the files, the pending input and the printed lines of [h]. *)
Definition host_keeps (h h' : Host) : Prop :=
  analysis_output h' = analysis_output h ∧ stdin h' = stdin h ∧
  stdout h' = stdout h.

(** The lines [main] prints for the items of a report, numbered from [i]:
    four lines an item. *)
Fixpoint printed (i : nat) (items : list (gmap string string)) : list out :=
  match items with
  | [] => []
  | art :: rest =>
      [ OutArticle i (dict_get art "title" "");
        OutAnalysis (dict_get art "analysis" "");
        OutSource (dict_get art "source" "");
        OutRule ] ++ printed (S i) rest
  end.


(** ** The monad, step by step *)

Lemma bind_run {A B} (m : M A) (f : A → M B) w :
  (m ≫= f) w = match m w with
               | (Returned a, w') => f a w'
               | (Raised e, w') => (Raised e, w')
               end.
Proof. reflexivity. Qed.

Lemma run_returned {A} (m : M A) w a :
  (m w).1 = Returned a → m w = (Returned a, (m w).2).
Proof. destruct (m w) as [r w']. simpl. by intros ->. Qed.

Lemma net_step_refl w : net_step w w 0 [].
Proof.
  unfold net_step. rewrite Nat.add_0_r, app_nil_r. naive_solver.
Qed.

Lemma net_step_trans w w1 w2 n1 n2 t1 t2 :
  net_step w w1 n1 t1 → net_step w1 w2 n2 t2 →
  net_step w w2 (n1 + n2) (t1 ++ t2).
Proof.
  unfold net_step.
  intros (-> & -> & -> & -> & -> & -> & ->) (-> & -> & -> & -> & -> & -> & ->).
  rewrite Nat.add_assoc, app_assoc. naive_solver.
Qed.

Lemma effects_app t1 t2 : effects (t1 ++ t2) = effects t1 ++ effects t2.
Proof. apply List.filter_app. Qed.

(** ** fetch_feed *)

(** A failed attempt is one request, something printed, and [None]. *)
Lemma fetch_attempt_failed url retries attempt w :
  failed (net w (requests w) url) →
  ∃ w' msg, fetch_attempt url retries attempt w = (Returned None, w') ∧
            net_step w w' 1 [EGet url; EPrint msg].
Proof.
  intros Hfail. unfold fetch_attempt, try_except.
  rewrite bind_run. unfold requests_get.
  destruct (net w (requests w) url) as [code body|msg|msg] eqn:Hnet; simpl.
  - simpl in Hfail. destruct (decide (code = 200)) as [->|_]; [done|].
    eexists _, _. split; [reflexivity|].
    unfold net_step; simpl. rewrite <- app_assoc, Nat.add_1_r. naive_solver.
  - eexists _, _. split; [reflexivity|].
    unfold net_step; simpl. rewrite <- app_assoc, Nat.add_1_r. naive_solver.
  - eexists _, _. split; [reflexivity|].
    unfold net_step; simpl. rewrite <- app_assoc, Nat.add_1_r. naive_solver.
Qed.

(** An attempt answered with status 200 is one request and the parsed
    body. *)
Lemma fetch_attempt_ok url retries attempt w body :
  net w (requests w) url = Response 200 body →
  ∃ w', fetch_attempt url retries attempt w
          = (Returned (Some (feedparser_parse body)), w') ∧
        net_step w w' 1 [EGet url].
Proof.
  intros Hnet. unfold fetch_attempt, try_except.
  rewrite bind_run. unfold requests_get. rewrite Hnet. simpl.
  eexists. split; [reflexivity|].
  unfold net_step; simpl. rewrite Nat.add_1_r. naive_solver.
Qed.

Lemma time_sleep_run (delay : Z) w :
  (0 ≤ delay)%Z →
  ∃ w', time_sleep delay w = (Returned tt, w') ∧ net_step w w' 0 [ESleep delay].
Proof.
  intros Hd. unfold time_sleep. destruct (decide (delay < 0)); [lia|].
  eexists. split; [reflexivity|].
  unfold net_step; simpl. rewrite Nat.add_0_r. naive_solver.
Qed.

(** Whatever the network does, an attempt is one request and returns. *)
Lemma fetch_attempt_returns url retries attempt w :
  ∃ got w' t, fetch_attempt url retries attempt w = (Returned got, w') ∧
              net_step w w' 1 t.
Proof.
  destruct (net w (requests w) url) as [code body|msg|msg] eqn:Hnet.
  - destruct (decide (code = 200)) as [->|Hne].
    + destruct (fetch_attempt_ok url retries attempt w body Hnet)
        as (w' & Hrun & Hstep). eauto.
    + destruct (fetch_attempt_failed url retries attempt w)
        as (w' & msg & Hrun & Hstep); [by rewrite Hnet|]. eauto.
  - destruct (fetch_attempt_failed url retries attempt w)
      as (w' & m & Hrun & Hstep); [by rewrite Hnet|]. eauto.
  - destruct (fetch_attempt_failed url retries attempt w)
      as (w' & m & Hrun & Hstep); [by rewrite Hnet|]. eauto.
Qed.

Lemma fetch_loop_exhausted url retries (delay : Z) attempts :
  (0 ≤ delay)%Z →
  ∀ w,
  (∀ i, (i < length attempts)%nat → failed (net w (requests w + i)%nat url)) →
  ∃ w' t, fetch_loop url retries delay attempts w = (Returned None, w') ∧
          net_step w w' (length attempts) t ∧
          effects t = retry_pattern url delay (length attempts).
Proof.
  intros Hd. induction attempts as [|attempt rest IH]; intros w Hfail; simpl.
  - eexists _, [EPrint _]. split; [reflexivity|]. split; [|done].
    unfold net_step; simpl. rewrite Nat.add_0_r. naive_solver.
  - destruct (fetch_attempt_failed url retries attempt w)
      as (w1 & msg & Hrun1 & Hstep1).
    { specialize (Hfail 0%nat). rewrite Nat.add_0_r in Hfail.
      apply Hfail. simpl. lia. }
    destruct (time_sleep_run delay w1 Hd) as (w2 & Hrun2 & Hstep2).
    pose proof (net_step_trans _ _ _ _ _ _ _ Hstep1 Hstep2) as Hstep12.
    destruct (IH w2) as (w3 & t & Hrun3 & Hstep3 & Heff).
    { intros i Hi. destruct Hstep12 as (-> & -> & _).
      replace (requests w + (1 + 0) + i)%nat with (requests w + S i)%nat by lia.
      apply Hfail. simpl. lia. }
    eexists w3, _. split; [|split].
    + rewrite bind_run, Hrun1. simpl. rewrite bind_run, Hrun2. exact Hrun3.
    + exact (net_step_trans _ _ _ _ _ _ _ Hstep12 Hstep3).
    + rewrite effects_app, Heff. reflexivity.
Qed.


(** With a delay that [time.sleep] accepts the loop always returns, and it
    touches nothing but the network. *)
Lemma fetch_loop_returns url retries (delay : Z) attempts :
  (0 ≤ delay)%Z →
  ∀ w, ∃ feed w' n t,
    fetch_loop url retries delay attempts w = (Returned feed, w') ∧
    net_step w w' n t.
Proof.
  intros Hd. induction attempts as [|attempt rest IH]; intros w; simpl.
  - eexists None, _, 0%nat, [EPrint _]. split; [reflexivity|].
    unfold net_step; simpl. rewrite Nat.add_0_r. naive_solver.
  - destruct (fetch_attempt_returns url retries attempt w)
      as (got & w1 & t1 & Hrun1 & Hstep1).
    rewrite bind_run, Hrun1. destruct got as [feed|].
    + eexists _, _, _, _. split; [reflexivity|exact Hstep1].
    + destruct (time_sleep_run delay w1 Hd) as (w2 & Hrun2 & Hstep2).
      destruct (IH w2) as (feed & w3 & n & t & Hrun3 & Hstep3).
      rewrite bind_run, Hrun2. eexists _, _, _, _. split; [exact Hrun3|].
      exact (net_step_trans _ _ _ _ _ _ _
               (net_step_trans _ _ _ _ _ _ _ Hstep1 Hstep2) Hstep3).
Qed.



(** ** Gathering the articles *)

Lemma fetch_all_returns urls :
  ∀ w, ∃ results w' n t,
    fetch_all urls w = (Returned results, w') ∧
    length results = length urls ∧ net_step w w' n t.
Proof.
  induction urls as [|url rest IH]; intros w; simpl.
  - eexists [], w, _, _. split; [reflexivity|]. split; [done|].
    apply net_step_refl.
  - destruct (fetch_loop_returns url 3 5 (range 3) ltac:(lia) w)
      as (feed & w1 & n1 & t1 & Hrun1 & Hstep1).
    destruct (IH w1) as (others & w2 & n2 & t2 & Hrun2 & Hlen & Hstep2).
    eexists (feed :: others), w2, _, _. split; [|split].
    + rewrite bind_run. unfold fetch_feed. rewrite Hrun1.
      rewrite bind_run, Hrun2. reflexivity.
    + simpl. by rewrite Hlen.
    + exact (net_step_trans _ _ _ _ _ _ _ Hstep1 Hstep2).
Qed.

Lemma foldl_append {A B} (f : B → A) (l : list B) :
  ∀ acc, foldl (λ acc x, acc ++ [f x]) acc l = acc ++ (f <$> l).
Proof.
  induction l as [|x l IH]; intros acc; simpl.
  - by rewrite app_nil_r.
  - rewrite IH, <- app_assoc. reflexivity.
Qed.

Lemma append_entries_eq articles es :
  append_entries articles es = articles ++ (article_of_entry <$> take 5 es).
Proof. apply foldl_append. Qed.

(** The loop gathers, behind what it started with, what each source
    contributes. *)
Lemma collect_feeds_fetch_all urls :
  ∀ articles w,
    collect_feeds urls articles w =
    match fetch_all urls w with
    | (Returned results, w') => (Returned (articles ++ per_source results), w')
    | (Raised e, w') => (Raised e, w')
    end.
Proof.
  induction urls as [|url rest IH]; intros articles w; simpl.
  - unfold per_source; simpl. by rewrite app_nil_r.
  - rewrite !bind_run. destruct (fetch_feed url 3 5 w) as [[feed|e] w1]; [|done].
    rewrite IH, bind_run.
    destruct (fetch_all rest w1) as [[others|e] w2]; [|done]. simpl.
    f_equal. f_equal. unfold per_source; simpl.
    destruct feed as [[[|e es]]|]; simpl.
    + reflexivity.
    + rewrite append_entries_eq, <- app_assoc. reflexivity.
    + reflexivity.
Qed.

Lemma live_articles_fetch_all w :
  live_articles w =
  match fetch_all feeds w with
  | (Returned results, w') => (Returned (take 15 (per_source results)), w')
  | (Raised e, w') => (Raised e, w')
  end.
Proof.
  unfold live_articles. rewrite bind_run, collect_feeds_fetch_all.
  by destruct (fetch_all feeds w) as [[results|e] w1].
Qed.

(** The live part always returns and leaves the cache file alone. *)
Lemma live_articles_returns w :
  ∃ live w1 n t, live_articles w = (Returned live, w1) ∧ net_step w w1 n t.
Proof.
  destruct (fetch_all_returns feeds w) as (results & w1 & n & t & Hrun & _ & Hstep).
  rewrite live_articles_fetch_all, Hrun.
  eexists _, _, _, _. split; [reflexivity|exact Hstep].
Qed.

(** The run of [aggregate] after its live part. *)
Lemma aggregate_run w live w1 :
  live_articles w = (Returned live, w1) →
  ∃ w', aggregate w = (resolve live (cache w1), w') ∧
        cache w' = match resolve live (cache w1) with
                   | Returned batch => Stored batch
                   | Raised _ => cache w1
                   end.
Proof.
  intros Hlive. unfold aggregate. rewrite bind_run, Hlive.
  destruct live as [|art rest].
  - rewrite bind_run. unfold cache_fallback. rewrite bind_run.
    unfold cache_exists, json_load_cache, print, emit; simpl.
    destruct (cache w1) as [| |[|art rest]] eqn:Hc; simpl.
    + eexists. split; reflexivity.
    + rewrite bind_run; simpl. rewrite Hc. eexists. split; reflexivity.
    + rewrite bind_run; simpl. rewrite Hc. eexists. split; reflexivity.
    + rewrite bind_run; simpl. rewrite Hc. eexists. split; reflexivity.
  - eexists. split; reflexivity.
Qed.

Lemma live_articles_cache w live w1 :
  live_articles w = (Returned live, w1) → cache w1 = cache w.
Proof.
  intros Hlive.
  destruct (live_articles_returns w) as (live' & w1' & n & t & Hrun & Hstep).
  rewrite Hlive in Hrun. injection Hrun as <- <-.
  by destruct Hstep as (_ & _ & -> & _).
Qed.

Lemma resolve_nonempty live c batch :
  resolve live c = Returned batch → batch ≠ [].
Proof.
  destruct live as [|art rest], c as [| |[|art' rest']]; simpl;
    intros [= <-]; done.
Qed.

Lemma aggregate_nonempty w batch w' :
  aggregate w = (Returned batch, w') → batch ≠ [].
Proof.
  intros Hrun.
  destruct (live_articles_returns w) as (live & w1 & n & t & Hlive & _).
  destruct (aggregate_run w live w1 Hlive) as (w'' & Hagg & _).
  rewrite Hrun in Hagg. injection Hagg as Hres _.
  by eapply resolve_nonempty.
Qed.

Lemma length_per_source results :
  length (per_source results)
  = sum_list_with (λ r, 5 `min` length (live_entries r))%nat results.
Proof.
  unfold per_source. induction results as [|r rest IH]; [done|].
  rewrite fmap_cons. cbn [concat sum_list_with].
  rewrite length_app, length_fmap, length_take. f_equal. exact IH.
Qed.

Lemma per_source_nonempty results :
  Exists (λ r, live_entries r ≠ []) results → take 15 (per_source results) ≠ [].
Proof.
  intros Hex Hnil. apply (f_equal length) in Hnil.
  rewrite length_take, length_per_source in Hnil. cbn [length] in Hnil.
  assert (0 < sum_list_with
                (λ r, 5 `min` length (live_entries r)) results)%nat; [|lia].
  clear Hnil. induction Hex as [r rest Hr|r rest _ IH]; cbn [sum_list_with].
  - destruct (live_entries r); [done|]. cbn [length]. lia.
  - lia.
Qed.

(** C1.  When the sources, fetched in declaration order, yield [results]
    and at least one of them has entries, [aggregate] returns the first 15
    of the articles made from the first 5 entries of each source, in source
    order then entry order; a source whose fetch failed or whose feed has
    no entries contributes nothing and does not stop the others.  The
    length is min(15, sum over the sources of min(5, entries)). *)
Theorem aggregate_live_batch w results w1 :
  fetch_all feeds w = (Returned results, w1) →
  Exists (λ r, live_entries r ≠ []) results →
  ∃ w', aggregate w = (Returned (take 15 (per_source results)), w') ∧
        length results = length feeds ∧
        length (take 15 (per_source results))
        = (15 `min` sum_list_with
                      (λ r, 5 `min` length (live_entries r)) results)%nat.
Proof.
  intros Hfetch Hex.
  assert (Hlive : live_articles w = (Returned (take 15 (per_source results)), w1))
    by (by rewrite live_articles_fetch_all, Hfetch).
  destruct (aggregate_run w _ w1 Hlive) as (w' & Hagg & _).
  pose proof (per_source_nonempty results Hex) as Hne.
  exists w'. split; [|split].
  - rewrite Hagg. by destruct (take 15 (per_source results)).
  - destruct (fetch_all_returns feeds w) as (rs & w2 & n & t & Hrun & Hlen & _).
    rewrite Hfetch in Hrun. by injection Hrun as -> _.
  - by rewrite length_take, length_per_source.
Qed.

(** C2.  When the live part yields no article and there is no cache file,
    [aggregate] returns exactly the built-in article, whose title and link
    are the fixed ones; and whenever [aggregate] returns, what it returns
    is not empty. *)
Theorem aggregate_placeholder w :
  (∀ w1, live_articles w = (Returned [], w1) → cache w = Missing →
         ∃ w', aggregate w = (Returned [fallback_article], w')) ∧
  (∀ batch w', aggregate w = (Returned batch, w') → batch ≠ []) ∧
  fallback_article !! "title"
  = Some "Government launches new affordable housing project" ∧
  fallback_article !! "link" = Some "https://example.com/fallback".
Proof.
  split; [|split; [|split]].
  - intros w1 Hlive Hc.
    destruct (aggregate_run w [] w1 Hlive) as (w' & Hagg & _).
    rewrite (live_articles_cache _ _ _ Hlive), Hc in Hagg. eauto.
  - intros batch w'. apply aggregate_nonempty.
  - reflexivity.
  - reflexivity.
Qed.

(** C4.  When the live part yields no article and the cache file holds a
    non-empty batch, [aggregate] returns that batch as it is. *)
Theorem aggregate_cached_batch w w1 cached :
  live_articles w = (Returned [], w1) →
  cache w = Stored cached → cached ≠ [] →
  ∃ w', aggregate w = (Returned cached, w').
Proof.
  intros Hlive Hc Hne.
  destruct (aggregate_run w [] w1 Hlive) as (w' & Hagg & _).
  rewrite (live_articles_cache _ _ _ Hlive), Hc in Hagg.
  destruct cached; [done|]. eauto.
Qed.

(** C5.  The live part always returns, and [aggregate] ends by writing
    the cache file: when the live part yields articles, [aggregate]
    returns them and the cache file then holds exactly them, whatever it
    was before (missing, corrupt or another batch); when it yields none
    and the cache file holds a non-empty batch, [aggregate] returns that
    batch and the file holds it again; and whenever [aggregate] returns a
    batch, the cache file holds exactly that batch and nothing of what it
    held before. *)
Theorem aggregate_saves_batch w :
  ∃ live w1,
    live_articles w = (Returned live, w1) ∧
    (live ≠ [] →
     ∃ w', aggregate w = (Returned live, w') ∧ cache w' = Stored live) ∧
    (live = [] → ∀ cached, cache w = Stored cached → cached ≠ [] →
     ∃ w', aggregate w = (Returned cached, w') ∧ cache w' = Stored cached) ∧
    (∀ batch w', aggregate w = (Returned batch, w') → cache w' = Stored batch).
Proof.
  destruct (live_articles_returns w) as (live & w1 & n & t & Hlive & _).
  destruct (aggregate_run w live w1 Hlive) as (w' & Hagg & Hc).
  rewrite (live_articles_cache _ _ _ Hlive) in Hagg, Hc.
  exists live, w1. split; [exact Hlive|]. split; [|split].
  - intros Hne. exists w'. destruct live as [|art rest]; [done|].
    simpl in Hagg, Hc. by destruct (cache w).
  - intros -> cached Hcached Hne. exists w'. rewrite Hcached in Hagg, Hc.
    destruct cached as [|art rest]; [done|]. by simpl in Hagg, Hc.
  - intros batch w'' Hrun. rewrite Hrun in Hagg. injection Hagg as Hres <-.
    by rewrite <- Hres in Hc.
Qed.


Lemma article_of_entry_populated e : populated (article_of_entry e).
Proof.
  unfold populated, article_of_entry. by simplify_map_eq.
Qed.

Lemma per_source_populated results : Forall populated (per_source results).
Proof.
  unfold per_source. apply Forall_concat, Forall_fmap, Forall_forall.
  intros r _. apply Forall_fmap, Forall_forall. intros e _.
  apply article_of_entry_populated.
Qed.

Lemma fallback_article_populated : populated fallback_article.
Proof. unfold populated, fallback_article. by simplify_map_eq. Qed.

Lemma live_articles_populated w live w1 :
  live_articles w = (Returned live, w1) → Forall populated live.
Proof.
  rewrite live_articles_fetch_all.
  destruct (fetch_all feeds w) as [[results|e] w2]; [|done].
  intros [= <- _]. apply Forall_take, per_source_populated.
Qed.

(** Well-formed cache in, well-formed batch out. *)
Lemma aggregate_populated w batch w' :
  (∀ cached, cache w = Stored cached → Forall populated cached) →
  aggregate w = (Returned batch, w') → Forall populated batch.
Proof.
  intros Hcached Hrun.
  destruct (live_articles_returns w) as (live & w1 & n & t & Hlive & _).
  destruct (aggregate_run w live w1 Hlive) as (w'' & Hagg & _).
  rewrite (live_articles_cache _ _ _ Hlive), Hrun in Hagg.
  injection Hagg as Hres _.
  pose proof (live_articles_populated _ _ _ Hlive) as Hpop.
  destruct live as [|art rest].
  - destruct (cache w) as [| |[|art' rest']] eqn:Hc; simpl in Hres;
      try discriminate; injection Hres as ->.
    + by repeat constructor; apply fallback_article_populated.
    + by repeat constructor; apply fallback_article_populated.
    + by apply Hcached.
  - simpl in Hres. by injection Hres as ->.
Qed.

(** C7.  The article made from an entry takes the entry's title, link and
    summary, with "Untitled" and "No link" for a missing title or link, and
    for a missing summary the entry's description or else "No summary
    available."; so every article of the live batch has the three fields,
    and so has every article [aggregate] returns as long as the cached
    articles have them. *)
Theorem article_fields_populated w :
  (∀ e : entry,
     article_of_entry e !! "title"
     = Some (default "Untitled" (e !! "title")) ∧
     article_of_entry e !! "link"
     = Some (default "No link" (e !! "link")) ∧
     article_of_entry e !! "summary"
     = Some (default (default "No summary available." (e !! "description"))
                     (e !! "summary"))) ∧
  (∀ live w1, live_articles w = (Returned live, w1) → Forall populated live) ∧
  (∀ batch w',
     (∀ cached, cache w = Stored cached → Forall populated cached) →
     aggregate w = (Returned batch, w') → Forall populated batch).
Proof.
  split; [|split].
  - intros e. unfold article_of_entry, dict_get.
    destruct (e !! "title"), (e !! "link"), (e !! "summary"),
      (e !! "description"); by simplify_map_eq.
  - apply live_articles_populated.
  - apply aggregate_populated.
Qed.

(** C8.  Two calls of [aggregate] in a row whose live parts yield the same
    articles leave the same cache file behind, and have the same result:
    the second call writes again what the first one wrote. *)
Theorem aggregate_twice_same_cache w r1 w1 r2 w2 live wa wb :
  aggregate w = (r1, w1) → aggregate w1 = (r2, w2) →
  live_articles w = (Returned live, wa) →
  live_articles w1 = (Returned live, wb) →
  cache w2 = cache w1 ∧ r2 = r1.
Proof.
  intros Hrun1 Hrun2 Hlive1 Hlive2.
  destruct (aggregate_run w live wa Hlive1) as (w1' & Hagg1 & Hc1).
  destruct (aggregate_run w1 live wb Hlive2) as (w2' & Hagg2 & Hc2).
  rewrite (live_articles_cache _ _ _ Hlive1) in Hagg1, Hc1.
  rewrite (live_articles_cache _ _ _ Hlive2) in Hagg2, Hc2.
  rewrite Hrun1 in Hagg1. injection Hagg1 as -> <-.
  rewrite Hrun2 in Hagg2. injection Hagg2 as -> <-.
  rewrite Hc2. clear Hc2 Hrun1 Hrun2 Hlive1 Hlive2.
  destruct live as [|art rest].
  - destruct (cache w) as [| |[|art' rest']]; simpl in Hc1;
      rewrite Hc1; simpl; done.
  - simpl in *. by rewrite Hc1.
Qed.

(** ** The analysis loop *)

Lemma getitem_run (d : gmap string string) key v w :
  d !! key = Some v → getitem d key w = (Returned v, w).
Proof. intros Hd. unfold getitem. by rewrite Hd. Qed.

(** One article with the three fields: one call of the AI service, one
    result, no exception whatever the service does. *)
Lemma analyse_article_run art w :
  populated art →
  ∃ w', analyse_article art w = (Returned (analysis_item w 0 art), w') ∧
        ai w' = ai w ∧ ai_calls w' = S (ai_calls w) ∧ cache w' = cache w.
Proof.
  intros ([title Ht] & [link Hl] & [summary Hs]).
  unfold analyse_article, analysis_item, dict_get. rewrite Ht, Hs, Hl.
  rewrite bind_run, (getitem_run _ _ _ _ Ht).
  rewrite bind_run, (getitem_run _ _ _ _ Hs).
  rewrite bind_run, (getitem_run _ _ _ _ Hl).
  cbv zeta. unfold try_except. rewrite bind_run.
  unfold generate_content. rewrite Nat.add_0_r.
  destruct (ai w (ai_calls w) "gemini-2.0-flash"
              (analysis_prompt title summary link)) as [text|msg].
  - rewrite bind_run, (getitem_run _ _ _ _ Ht).
    rewrite bind_run, (getitem_run _ _ _ _ Hl).
    eexists. split; [reflexivity|done].
  - rewrite bind_run, (getitem_run _ _ _ _ Ht).
    rewrite bind_run, (getitem_run _ _ _ _ Hl).
    eexists. split; [reflexivity|done].
Qed.

Lemma analyse_articles_run batch :
  Forall populated batch →
  ∀ analyses w,
  ∃ w', analyse_articles batch analyses w
          = (Returned (analyses ++ imap (analysis_item w) batch), w') ∧
        ai w' = ai w ∧ ai_calls w' = (ai_calls w + length batch)%nat ∧
        cache w' = cache w.
Proof.
  induction 1 as [|art rest Hart _ IH]; intros analyses w; simpl.
  - exists w. rewrite app_nil_r, Nat.add_0_r. done.
  - destruct (analyse_article_run art w Hart) as (w1 & Hrun1 & Hai & Hn & Hc).
    destruct (IH (analyses ++ [analysis_item w 0 art]) w1)
      as (w2 & Hrun2 & Hai2 & Hn2 & Hc2).
    exists w2. split; [|split; [|split]].
    + rewrite bind_run, Hrun1, Hrun2, <- app_assoc. simpl.
      do 4 f_equal. apply imap_ext. intros i x _. unfold analysis_item.
      rewrite Hai, Hn. simpl. do 4 f_equal. lia.
    + congruence.
    + rewrite Hn2, Hn. lia.
    + congruence.
Qed.

(** When the loop returns, it has appended one result per article. *)
Lemma analyse_articles_length batch :
  ∀ analyses w results w',
    analyse_articles batch analyses w = (Returned results, w') →
    length results = (length analyses + length batch)%nat.
Proof.
  induction batch as [|art rest IH]; intros analyses w results w'; simpl.
  - intros [= <- _]. lia.
  - rewrite bind_run. destruct (analyse_article art w) as [[item|e] w1]; [|done].
    intros Hrun. apply IH in Hrun. rewrite length_app in Hrun. simpl in Hrun.
    lia.
Qed.

(** C9.  For a batch of articles with the three fields the analysis loop
    returns, without raising, one result per article in batch order; the
    result at position [i] keeps the article's title and its link (as
    [source]), and its analysis is made from the answer to the [i]-th call
    of the AI service alone: the generated text, or the error text when
    that call raised. *)
Theorem analysis_one_per_article batch w :
  Forall populated batch →
  ∃ results w',
    analyse_articles batch [] w = (Returned results, w') ∧
    length results = length batch ∧
    ∀ i art, batch !! i = Some art →
      ∃ item title summary link,
        results !! i = Some item ∧
        art !! "title" = Some title ∧ art !! "summary" = Some summary ∧
        art !! "link" = Some link ∧
        item !! "title" = Some title ∧ item !! "source" = Some link ∧
        item !! "analysis"
        = Some (analysis_text
                  (ai w (ai_calls w + i)%nat "gemini-2.0-flash"
                      (analysis_prompt title summary link))).
Proof.
  intros Hpop.
  destruct (analyse_articles_run batch Hpop [] w) as (w' & Hrun & _).
  exists (imap (analysis_item w) batch), w'. split; [exact Hrun|].
  split; [apply length_imap|].
  intros i art Hi.
  assert (Hart : populated art).
  { rewrite Forall_forall in Hpop. apply Hpop. by eapply list_elem_of_lookup_2. }
  destruct Hart as ([title Ht] & [link Hl] & [summary Hs]).
  exists (analysis_item w i art), title, summary, link.
  rewrite list_lookup_imap, Hi. unfold analysis_item, dict_get.
  rewrite Ht, Hl, Hs. simpl. repeat split; by simplify_map_eq.
Qed.

(** C10.  Whenever [analyze_government_news] returns, its status is
    "success" and its list of analyses is not empty. *)
Theorem report_is_success w report w' :
  analyze_government_news w = (Returned report, w') →
  status report = "success" ∧ analyses report ≠ [].
Proof.
  unfold analyze_government_news. rewrite bind_run.
  destruct (aggregate w) as [[batch|e] w1] eqn:Hagg; [|done].
  rewrite bind_run.
  destruct (analyse_articles batch [] w1) as [[results|e] w2] eqn:Hloop; [|done].
  rewrite bind_run. unfold now_isoformat. intros [= <- _]. simpl.
  split; [done|].
  apply analyse_articles_length in Hloop. apply aggregate_nonempty in Hagg.
  destruct batch; [done|]. destruct results; [simpl in Hloop; lia|done].
Qed.

(** With a cache file that is missing or holds articles with the three
    fields, the whole operation returns, whatever the network and the AI
    service do. *)
Lemma analyze_government_news_returns w :
  cache w ≠ Corrupt →
  (∀ cached, cache w = Stored cached → Forall populated cached) →
  ∃ report w', analyze_government_news w = (Returned report, w').
Proof.
  intros Hnc Hcached.
  destruct (live_articles_returns w) as (live & w1 & n & t & Hlive & _).
  destruct (aggregate_run w live w1 Hlive) as (w2 & Hagg & _).
  rewrite (live_articles_cache _ _ _ Hlive) in Hagg.
  assert (∃ batch, resolve live (cache w) = Returned batch) as [batch Hres].
  { destruct live as [|art rest], (cache w) as [| |[|art' rest']];
      simpl; eauto; done. }
  rewrite Hres in Hagg.
  pose proof (aggregate_populated _ _ _ Hcached Hagg) as Hpop.
  destruct (analyse_articles_run batch Hpop [] w2) as (w3 & Hloop & _).
  unfold analyze_government_news.
  rewrite bind_run, Hagg, bind_run, Hloop, bind_run.
  unfold now_isoformat. eauto.
Qed.

(** ** More on fetch_feed *)

Lemma range_nonpos (n : Z) : (n ≤ 0)%Z → range n = [].
Proof.
  intros Hn. unfold range. by replace (Z.to_nat n) with 0%nat by lia.
Qed.


(** X1.  With [retries ≤ 0] the loop body never runs: [fetch_feed] makes
    no request, does not wait (so even a negative [delay] is harmless),
    prints that it gave up and returns [None]. *)
Theorem fetch_feed_no_retries url (retries delay : Z) w :
  (retries ≤ 0)%Z →
  ∃ w', fetch_feed url retries delay w = (Returned None, w') ∧
        net_step w w' 0 [EPrint (WarnGaveUp retries url)].
Proof.
  intros Hr. unfold fetch_feed. rewrite (range_nonpos _ Hr). simpl.
  eexists. split; [reflexivity|].
  unfold net_step; simpl. rewrite Nat.add_0_r. naive_solver.
Qed.


Lemma failed_or_ok (a : attempt) : failed a ∨ ∃ body, a = Response 200 body.
Proof.
  destruct a as [code body|msg|msg]; simpl; auto.
  destruct (decide (code = 200)) as [->|Hne]; eauto.
Qed.

(** A failed attempt and the wait after it lead to the rest of the loop. *)
Lemma fetch_loop_skip url retries (delay : Z) attempt rest w :
  (0 ≤ delay)%Z → failed (net w (requests w) url) →
  ∃ w2 msg,
    net_step w w2 1 [EGet url; EPrint msg; ESleep delay] ∧
    fetch_loop url retries delay (attempt :: rest) w
    = fetch_loop url retries delay rest w2.
Proof.
  intros Hd Hfail.
  destruct (fetch_attempt_failed url retries attempt w Hfail)
    as (w1 & msg & Hrun1 & Hstep1).
  destruct (time_sleep_run delay w1 Hd) as (w2 & Hrun2 & Hstep2).
  exists w2, msg. split.
  - exact (net_step_trans _ _ _ _ _ _ _ Hstep1 Hstep2).
  - simpl. rewrite bind_run, Hrun1. simpl. by rewrite bind_run, Hrun2.
Qed.

(** What a run of the retry loop can be: [None] after every attempt
    failed, or the parsed body of the first answer with status 200. *)
Lemma fetch_loop_bounded url retries (delay : Z) attempts :
  (0 ≤ delay)%Z →
  ∀ w, ∃ feed w' n t,
    fetch_loop url retries delay attempts w = (Returned feed, w') ∧
    net_step w w' n t ∧
    match feed with
    | None =>
        n = length attempts ∧
        (∀ i, (i < n)%nat → failed (net w (requests w + i)%nat url)) ∧
        effects t = retry_pattern url delay n
    | Some f =>
        ∃ k body,
          n = S k ∧ (k < length attempts)%nat ∧
          (∀ i, (i < k)%nat → failed (net w (requests w + i)%nat url)) ∧
          net w (requests w + k)%nat url = Response 200 body ∧
          f = feedparser_parse body ∧
          effects t = retry_pattern url delay k ++ [EGet url]
    end.
Proof.
  intros Hd. induction attempts as [|attempt rest IH]; intros w.
  - destruct (fetch_loop_exhausted url retries delay [] Hd w)
      as (w' & t & Hrun & Hstep & Heff); [simpl; lia|].
    exists None, w', 0%nat, t. split; [done|]. split; [done|].
    split; [done|]. split; [intros i Hi; lia|done].
  - destruct (failed_or_ok (net w (requests w) url)) as [Hfail|[body Hok]].
    + destruct (fetch_loop_skip url retries delay attempt rest w Hd Hfail)
        as (w2 & m & Hstep & Hrun).
      destruct (IH w2) as (feed & w3 & n & t & Hrun3 & Hstep3 & Hfeed).
      exists feed, w3, (1 + n)%nat, ([EGet url; EPrint m; ESleep delay] ++ t).
      split; [by rewrite Hrun|].
      split; [exact (net_step_trans _ _ _ _ _ _ _ Hstep Hstep3)|].
      destruct Hstep as (Hn & Hr & _).
      assert (Hshift : ∀ i, net w2 (requests w2 + i)%nat url
                            = net w (requests w + S i)%nat url).
      { intros i. rewrite Hn, Hr. f_equal. lia. }
      destruct feed as [f|].
      * destruct Hfeed as (k & body & -> & Hk & Hbefore & Hok & -> & Heff).
        exists (S k), body. split; [done|]. split; [simpl; lia|].
        split; [|split; [by rewrite <- Hshift|split; [done|]]].
        -- intros [|i] Hi; [by rewrite Nat.add_0_r|].
           rewrite <- Hshift. apply Hbefore. lia.
        -- rewrite effects_app, Heff. reflexivity.
      * destruct Hfeed as (-> & Hbefore & Heff). split; [done|]. split.
        -- intros [|i] Hi; [by rewrite Nat.add_0_r|].
           rewrite <- Hshift. apply Hbefore. simpl in Hi. lia.
        -- rewrite effects_app, Heff. reflexivity.
    + destruct (fetch_attempt_ok url retries attempt w body Hok)
        as (w1 & Hrun & Hstep).
      exists (Some (feedparser_parse body)), w1, 1%nat, [EGet url].
      split; [simpl; by rewrite bind_run, Hrun|]. split; [done|].
      exists 0%nat, body. rewrite Nat.add_0_r.
      repeat split; try done; simpl; lia.
Qed.


(** ** More on the gathering of the articles *)

(** Every source costs between one and three requests. *)
Lemma fetch_all_bounds urls :
  ∀ w, ∃ results w' n t,
    fetch_all urls w = (Returned results, w') ∧ net_step w w' n t ∧
    (length urls ≤ n ≤ 3 * length urls)%nat.
Proof.
  induction urls as [|url rest IH]; intros w; simpl.
  - eexists [], w, 0%nat, []. split; [reflexivity|].
    split; [apply net_step_refl|lia].
  - destruct (fetch_loop_bounded url 3 5 (range 3) ltac:(lia) w)
      as (feed & w1 & n1 & t1 & Hrun1 & Hstep1 & Hfeed).
    destruct (IH w1) as (others & w2 & n2 & t2 & Hrun2 & Hstep2 & Hn2).
    exists (feed :: others), w2, (n1 + n2)%nat, (t1 ++ t2).
    split; [|split].
    + rewrite bind_run. unfold fetch_feed. rewrite Hrun1.
      by rewrite bind_run, Hrun2.
    + exact (net_step_trans _ _ _ _ _ _ _ Hstep1 Hstep2).
    + assert (1 ≤ n1 ≤ 3)%nat; [|lia].
      destruct feed as [f|].
      * destruct Hfeed as (k & body & -> & Hk & _). simpl in Hk. lia.
      * destruct Hfeed as (-> & _). simpl. lia.
Qed.

(** What follows the live part touches the cache file and the console
    only. *)
Lemma aggregate_frame w live w1 r w' :
  live_articles w = (Returned live, w1) → aggregate w = (r, w') →
  net w' = net w1 ∧ requests w' = requests w1 ∧ ai w' = ai w1 ∧
  ai_calls w' = ai_calls w1 ∧ now w' = now w1.
Proof.
  intros Hlive. unfold aggregate. rewrite bind_run, Hlive.
  destruct live as [|art rest].
  - rewrite bind_run. unfold cache_fallback. rewrite bind_run.
    unfold cache_exists, json_load_cache, print, emit; simpl.
    destruct (cache w1) as [| |[|art rest]] eqn:Hc; simpl.
    + by intros [= <- <-].
    + rewrite bind_run; simpl. rewrite Hc. by intros [= <- <-].
    + rewrite bind_run; simpl. rewrite Hc. by intros [= <- <-].
    + rewrite bind_run; simpl. rewrite Hc. by intros [= <- <-].
  - by intros [= <- <-].
Qed.

(** X4.  One run of [aggregate], returning or raising, makes at least 8
    and at most 24 requests (one to three per source) and no call of the
    AI service. *)
Theorem aggregate_request_bounds w r w' :
  aggregate w = (r, w') →
  (requests w + 8 ≤ requests w' ≤ requests w + 24)%nat ∧
  ai_calls w' = ai_calls w.
Proof.
  intros Hrun.
  destruct (fetch_all_bounds feeds w)
    as (results & w1 & n & t & Hfetch & Hstep & Hn).
  assert (Hlive : live_articles w = (Returned (take 15 (per_source results)), w1))
    by (by rewrite live_articles_fetch_all, Hfetch).
  destruct (aggregate_frame _ _ _ _ _ Hlive Hrun) as (_ & -> & _ & -> & _).
  destruct Hstep as (_ & -> & _ & _ & -> & _). simpl in Hn. lia.
Qed.

(** After a returning run the cache file holds the returned batch. *)
Lemma aggregate_saves_cache w batch w' :
  aggregate w = (Returned batch, w') → cache w' = Stored batch.
Proof.
  intros Hrun.
  destruct (live_articles_returns w) as (live & w1 & n & t & Hlive & _).
  destruct (aggregate_run w live w1 Hlive) as (w'' & Hagg & Hc).
  rewrite Hrun in Hagg. injection Hagg as Hres <-.
  by rewrite <- Hres in Hc.
Qed.

(** ** More on the analysis loop *)

Lemma raise_bind {A B} (e : exn) (f : A → M B) w :
  (raise e ≫= f) w = (Raised e, w).
Proof. reflexivity. Qed.

Lemma getitem_missing (d : gmap string string) key w :
  d !! key = None → getitem d key w = (Raised (KeyError key), w).
Proof. intros Hd. unfold getitem. by rewrite Hd. Qed.

Lemma text_or_nonempty text default : default ≠ "" → text_or text default ≠ "".
Proof. intros Hd. by destruct text as [[|a t]|]. Qed.

Lemma analysis_text_nonempty reply : analysis_text reply ≠ "".
Proof. destruct reply; [by apply text_or_nonempty|done]. Qed.

Lemma analysis_item_complete w i art : complete (analysis_item w i art).
Proof.
  unfold complete, analysis_item. simplify_map_eq.
  repeat split; try done. eexists. split; [done|].
  apply analysis_text_nonempty.
Qed.

(** An article with the three fields costs one call and nothing else. *)
Lemma analyse_article_step art w :
  populated art →
  ∃ w', analyse_article art w = (Returned (analysis_item w 0 art), w') ∧
        ai_step w w'.
Proof.
  intros ([title Ht] & [link Hl] & [summary Hs]).
  unfold analyse_article, analysis_item, dict_get. rewrite Ht, Hs, Hl.
  rewrite bind_run, (getitem_run _ _ _ _ Ht).
  rewrite bind_run, (getitem_run _ _ _ _ Hs).
  rewrite bind_run, (getitem_run _ _ _ _ Hl).
  cbv zeta. unfold try_except. rewrite bind_run.
  unfold generate_content. rewrite Nat.add_0_r.
  destruct (ai w (ai_calls w) "gemini-2.0-flash"
              (analysis_prompt title summary link)) as [text|msg].
  - rewrite bind_run, (getitem_run _ _ _ _ Ht).
    rewrite bind_run, (getitem_run _ _ _ _ Hl).
    eexists. split; [reflexivity|]. by unfold ai_step.
  - rewrite bind_run, (getitem_run _ _ _ _ Ht).
    rewrite bind_run, (getitem_run _ _ _ _ Hl).
    eexists. split; [reflexivity|]. by unfold ai_step.
Qed.

(** An article without one of them raises [KeyError] before any call. *)
Lemma analyse_article_missing art w :
  ¬ populated art → ∃ key, analyse_article art w = (Raised (KeyError key), w).
Proof.
  intros Hnot. unfold analyse_article.
  destruct (art !! "title") as [title|] eqn:Ht.
  2: { exists "title". by rewrite bind_run, (getitem_missing _ _ _ Ht). }
  rewrite bind_run, (getitem_run _ _ _ _ Ht).
  destruct (art !! "summary") as [summary|] eqn:Hs.
  2: { exists "summary". by rewrite bind_run, (getitem_missing _ _ _ Hs). }
  rewrite bind_run, (getitem_run _ _ _ _ Hs).
  destruct (art !! "link") as [link|] eqn:Hl.
  2: { exists "link". by rewrite bind_run, (getitem_missing _ _ _ Hl). }
  destruct Hnot. unfold populated. rewrite Ht, Hs, Hl. eauto.
Qed.

Lemma populated_dec art : populated art ∨ ¬ populated art.
Proof.
  unfold populated.
  destruct (art !! "title"), (art !! "link"), (art !! "summary");
    try (left; by eauto);
    right; intros (H1 & H2 & H3);
    by (apply is_Some_None in H1 || apply is_Some_None in H2
        || apply is_Some_None in H3).
Qed.

(** What a run of the analysis loop can be. *)
Lemma analyse_articles_outcome batch :
  ∀ analyses w r w',
    analyse_articles batch analyses w = (r, w') →
    cache w' = cache w ∧ requests w' = requests w ∧
    match r with
    | Returned results =>
        Forall populated batch ∧
        results = analyses ++ imap (analysis_item w) batch ∧
        ai_calls w' = (ai_calls w + length batch)%nat
    | Raised e => (∃ key, e = KeyError key) ∧ ¬ Forall populated batch
    end.
Proof.
  induction batch as [|art rest IH]; intros analyses w r w'; simpl.
  - intros [= <- <-]. rewrite app_nil_r, Nat.add_0_r. done.
  - rewrite bind_run. destruct (populated_dec art) as [Hart|Hart].
    + destruct (analyse_article_step art w Hart) as (w1 & -> & Hstep).
      intros Hrun. apply IH in Hrun as (Hc & Hr & Hres).
      destruct Hstep as (_ & Hr1 & Hc1 & Hai & Hn & _).
      split; [congruence|]. split; [congruence|].
      destruct r as [results|e].
      * destruct Hres as (Hpop & -> & Hcalls). split; [by constructor|].
        split; [|lia]. rewrite <- app_assoc. simpl. do 2 f_equal.
        apply imap_ext. intros i x _. unfold analysis_item.
        rewrite Hai, Hn. simpl. do 4 f_equal. lia.
      * destruct Hres as (Hkey & Hnot). split; [done|].
        intros Hall. apply Hnot. by inversion Hall.
    + destruct (analyse_article_missing art w Hart) as (key & ->).
      intros [= <- <-]. split; [done|]. split; [done|].
      split; [eauto|]. intros Hall. apply Hart. by inversion Hall.
Qed.

(** X5.  When [analyze_government_news] returns, the cache file holds the
    batch that was analysed: as many articles as the report has analyses,
    in the same order, with the same titles and links; and the run made
    exactly one call of the AI service per analysis. *)
Theorem report_matches_cache w report w' :
  analyze_government_news w = (Returned report, w') →
  ∃ batch,
    cache w' = Stored batch ∧
    length (analyses report) = length batch ∧
    ai_calls w' = (ai_calls w + length batch)%nat ∧
    ∀ i art item,
      batch !! i = Some art → analyses report !! i = Some item →
      item !! "title" = art !! "title" ∧ item !! "source" = art !! "link".
Proof.
  unfold analyze_government_news. rewrite bind_run.
  destruct (aggregate w) as [[batch|e] w1] eqn:Hagg; [|done].
  rewrite bind_run.
  destruct (analyse_articles batch [] w1) as [[results|e] w2] eqn:Hloop; [|done].
  rewrite bind_run. unfold now_isoformat. intros [= <- <-]. simpl.
  apply analyse_articles_outcome in Hloop
    as (Hc & _ & Hpop & -> & Hcalls).
  exists batch. split; [|split; [|split]].
  - rewrite Hc. by eapply aggregate_saves_cache.
  - simpl. apply length_imap.
  - destruct (live_articles_returns w) as (live & wl & n & t & Hlive & Hstep).
    destruct (aggregate_frame _ _ _ _ _ Hlive Hagg) as (_ & _ & _ & Hn & _).
    destruct Hstep as (_ & _ & _ & _ & Hn' & _). lia.
  - intros i art item Hi. simpl. rewrite list_lookup_imap, Hi. simpl.
    intros [= <-].
    assert (Hart : populated art).
    { rewrite Forall_forall in Hpop. apply Hpop.
      by eapply list_elem_of_lookup_2. }
    destruct Hart as ([title Ht] & [link Hl] & _).
    unfold analysis_item, dict_get. rewrite Ht, Hl. by simplify_map_eq.
Qed.

(** X6.  Every item of a returned report has a title, a source and an
    analysis text that is not empty: the generated text, the note that
    nothing was generated, or the error text. *)
Theorem report_items_complete w report w' :
  analyze_government_news w = (Returned report, w') →
  Forall complete (analyses report).
Proof.
  unfold analyze_government_news. rewrite bind_run.
  destruct (aggregate w) as [[batch|e] w1] eqn:Hagg; [|done].
  rewrite bind_run.
  destruct (analyse_articles batch [] w1) as [[results|e] w2] eqn:Hloop; [|done].
  rewrite bind_run. unfold now_isoformat. intros [= <- <-]. simpl.
  apply analyse_articles_outcome in Hloop as (_ & _ & _ & -> & _). simpl.
  apply Forall_forall. intros item Hin.
  apply list_elem_of_lookup in Hin as [i Hi].
  rewrite list_lookup_imap in Hi.
  destruct (batch !! i) as [art|]; [|done]. injection Hi as <-.
  apply analysis_item_complete.
Qed.

(** ** policy_recommendation and citizen_question *)

Lemma recommendation_text_nonempty reply : recommendation_text reply ≠ "".
Proof. destruct reply; [by apply text_or_nonempty|done]. Qed.

Lemma answer_text_nonempty reply : answer_text reply ≠ "".
Proof. destruct reply; [by apply text_or_nonempty|done]. Qed.

(** X7.  [policy_recommendation] never raises and makes exactly one call
    of the AI service: an answer gives status "success" with the generated
    text, or a fixed note when the text is missing or empty; an exception
    of the call gives status "error" with the error text.  In both cases
    the recommendation is not empty. *)
Theorem policy_recommendation_total context w :
  ∃ d w',
    policy_recommendation context w = (Returned d, w') ∧ ai_step w w' ∧
    (∃ text, d !! "recommendations" = Some text ∧ text ≠ "") ∧
    match ai w (ai_calls w) "gemini-2.0-flash" (policy_prompt context) with
    | Completion text =>
        d !! "status" = Some "success" ∧
        d !! "recommendations"
        = Some (text_or text "⚠️ No recommendation generated.")
    | Refusal msg =>
        d !! "status" = Some "error" ∧
        d !! "recommendations" = Some ("⚠️ AI error: " +:+ msg)
    end.
Proof.
  unfold policy_recommendation, try_except. cbv zeta. rewrite bind_run.
  unfold generate_content.
  pose proof (recommendation_text_nonempty
                (ai w (ai_calls w) "gemini-2.0-flash" (policy_prompt context)))
    as Hne.
  destruct (ai w (ai_calls w) "gemini-2.0-flash" (policy_prompt context))
    as [text|msg]; simpl in Hne.
  - eexists _, _. split; [reflexivity|]. split; [by unfold ai_step|].
    split; [eexists; split; [by simplify_map_eq|done]|].
    by simplify_map_eq.
  - eexists _, _. split; [reflexivity|]. split; [by unfold ai_step|].
    split; [eexists; split; [by simplify_map_eq|done]|].
    by simplify_map_eq.
Qed.

(** The same, as one equation. *)
Lemma policy_recommendation_run context w :
  ∃ d w',
    policy_recommendation context w = (Returned d, w') ∧ ai_step w w' ∧
    dict_get d "recommendations" "⚠️ No recommendation generated."
    = recommendation_text
        (ai w (ai_calls w) "gemini-2.0-flash" (policy_prompt context)).
Proof.
  unfold policy_recommendation, try_except. cbv zeta. rewrite bind_run.
  unfold generate_content.
  destruct (ai w (ai_calls w) "gemini-2.0-flash" (policy_prompt context))
    as [text|msg].
  - eexists _, _. split; [reflexivity|]. split; [by unfold ai_step|].
    unfold dict_get. by simplify_map_eq.
  - eexists _, _. split; [reflexivity|]. split; [by unfold ai_step|].
    unfold dict_get. by simplify_map_eq.
Qed.

Lemma host_bind_run {A B} (m : H A) (f : A → H B) h :
  (m ≫= f) h = match m h with
               | (Done a, h') => f a h'
               | (Failed e, h') => (Failed e, h')
               end.
Proof. reflexivity. Qed.

Lemma returned_inj {A} (a b : A) (w w' : World) :
  (Returned a, w) = (Returned b, w') → a = b.
Proof. by intros [= ->]. Qed.

Lemma host_ret_bind_eq {A B} (a : A) (f : A → H B) h :
  (mret a ≫= f) h = f a h.
Proof. reflexivity. Qed.

Lemma host_run_done {A} (m : H A) h a :
  (m h).1 = Done a → m h = (Done a, (m h).2).
Proof. destruct (m h) as [r h']. simpl. by intros ->. Qed.

Lemma run_raised {A} (m : M A) w e :
  (m w).1 = Raised e → m w = (Raised e, (m w).2).
Proof. destruct (m w) as [r w']. simpl. by intros ->. Qed.

Lemma set_world_same h : set_world (world h) h = h.
Proof. by destruct h. Qed.

(** What [citizen_question] does once the year is known. *)
Lemma citizen_question_run py question h year :
  last (str_split py (long_date py (now (world h)))) = Some year →
  ∃ h',
    citizen_question py question h
    = (Done {[ "answer" :=
                 answer_text
                   (ai (world h) (ai_calls (world h)) "gemini-2.0-flash"
                       (question_prompt (long_date py (now (world h)))
                          question year));
               "date_used" := long_date py (now (world h)) ]}, h') ∧
    ai_step (world h) (world h') ∧ host_keeps h h'.
Proof.
  intros Hyear. unfold citizen_question.
  rewrite host_bind_run. unfold lift at 1, now_long_date. simpl.
  rewrite set_world_same, host_bind_run.
  unfold last_item. rewrite Hyear. simpl.
  unfold lift, try_except. rewrite bind_run. unfold generate_content.
  destruct (ai (world h) (ai_calls (world h)) "gemini-2.0-flash" _)
    as [text|msg]; simpl;
    eexists; (split; [reflexivity|]); by unfold ai_step, host_keeps.
Qed.

(** X8.  When the formatted date has a last word, [citizen_question]
    returns whatever the AI service does, after exactly one call: the
    answer is the generated text, a fixed note when the text is missing or
    empty, or the error text when the call raised, so it is never empty;
    [date_used] is the formatted date.  When the date splits into no word
    at all, the [IndexError] of [split()[-1]] escapes before any call. *)
Theorem citizen_question_answers py question h :
  (∀ year,
     last (str_split py (long_date py (now (world h)))) = Some year →
     ∃ answer h',
       citizen_question py question h
       = (Done {[ "answer" := answer;
                  "date_used" := long_date py (now (world h)) ]}, h') ∧
       answer ≠ "" ∧
       answer = answer_text
                  (ai (world h) (ai_calls (world h)) "gemini-2.0-flash"
                      (question_prompt (long_date py (now (world h)))
                         question year)) ∧
       ai_step (world h) (world h') ∧ host_keeps h h') ∧
  (str_split py (long_date py (now (world h))) = [] →
   citizen_question py question h
   = (Failed (IndexError "list index out of range"), h)).
Proof.
  split.
  - intros year Hyear.
    destruct (citizen_question_run py question h year Hyear)
      as (h' & Hrun & Hstep & Hkeep).
    eexists _, h'. split; [exact Hrun|]. split; [apply answer_text_nonempty|].
    done.
  - intros Hnil. unfold citizen_question.
    rewrite host_bind_run. unfold lift at 1, now_long_date. simpl.
    rewrite set_world_same, host_bind_run.
    unfold last_item. by rewrite Hnil.
Qed.

(** ** app.py: /analyze *)

(** How a run of [analyze_government_news] can end, and what the cache
    file is afterwards. *)
Lemma analyze_government_news_outcome w r w' :
  analyze_government_news w = (r, w') →
  match r with
  | Returned report => ∃ batch, cache w' = Stored batch ∧ Forall populated batch
  | Raised e =>
      (e = JSONDecodeError "Expecting value" ∧ cache w' = Corrupt ∧
       cache w = Corrupt ∧ ∃ w1, live_articles w = (Returned [], w1)) ∨
      (∃ key batch, e = KeyError key ∧ cache w' = Stored batch ∧
                    batch ≠ [] ∧ ¬ Forall populated batch)
  end.
Proof.
  unfold analyze_government_news. rewrite bind_run.
  destruct (aggregate w) as [[batch|e] w1] eqn:Hagg.
  - pose proof (aggregate_saves_cache _ _ _ Hagg) as Hc.
    pose proof (aggregate_nonempty _ _ _ Hagg) as Hne.
    rewrite bind_run.
    destruct (analyse_articles batch [] w1) as [[results|e] w2] eqn:Hloop.
    + apply analyse_articles_outcome in Hloop as (Hc2 & _ & Hpop & _).
      rewrite bind_run. unfold now_isoformat. intros [= <- <-].
      exists batch. split; [congruence|done].
    + apply analyse_articles_outcome in Hloop as (Hc2 & _ & [key ->] & Hnot).
      intros [= <- <-]. right. exists key, batch.
      split; [done|]. split; [congruence|done].
  - intros [= <- <-]. left.
    destruct (live_articles_returns w) as (live & wl & n & t & Hlive & _).
    destruct (aggregate_run w live wl Hlive) as (w'' & Hrun & Hc).
    rewrite (live_articles_cache _ _ _ Hlive) in Hrun, Hc.
    rewrite Hagg in Hrun. injection Hrun as Hres <-.
    destruct live as [|art rest], (cache w) as [| |[|art' rest']] eqn:Hcw;
      simpl in Hres, Hc; try discriminate.
    injection Hres as <-. eauto.
Qed.

(** No live article and a corrupt cache file: the decoding error escapes
    the agent. *)
Lemma analyze_government_news_corrupt w w1 :
  live_articles w = (Returned [], w1) → cache w = Corrupt →
  ∃ w', analyze_government_news w
        = (Raised (JSONDecodeError "Expecting value"), w') ∧
        cache w' = Corrupt.
Proof.
  intros Hlive Hc.
  destruct (aggregate_run _ _ _ Hlive) as (w' & Hagg & Hc').
  rewrite (live_articles_cache _ _ _ Hlive), Hc in Hagg, Hc'.
  simpl in Hagg, Hc'. exists w'. split; [|done].
  unfold analyze_government_news. by rewrite bind_run, Hagg.
Qed.

Lemma analyze_news_run h :
  analyze_news h =
  match analyze_government_news (world h) with
  | (Returned report, w) =>
      (Done (JsonReport report, 200%Z),
       {| world := w; analysis_output := Output report; stdin := stdin h;
          stdout := stdout h |})
  | (Raised e, w) =>
      match cache w with
      | Missing =>
          (Done (JsonDict
                   {[ "status" := "error";
                      "message" := "⚠️ Failed to fetch or analyze news: "
                                   +:+ exn_str e ]}, 500%Z), set_world w h)
      | Corrupt =>
          (Failed (AgentError (JSONDecodeError "Expecting value")),
           set_world w h)
      | Stored cached =>
          (Done (JsonCached "warning"
                   ("⚠️ Live fetch failed: " +:+ exn_str e
                      +:+ ". Using cached news.") cached, 200%Z),
           set_world w h)
      end
  end.
Proof.
  unfold analyze_news, host_try. rewrite host_bind_run. unfold lift at 1.
  destruct (analyze_government_news (world h)) as [[report|e] w]; [done|].
  rewrite host_bind_run. unfold lift at 1, cache_exists. simpl.
  destruct (cache w) as [| |cached] eqn:Hc; [done| |].
  - rewrite host_bind_run. unfold lift, json_load_cache. simpl. by rewrite Hc.
  - rewrite host_bind_run. unfold lift, json_load_cache. simpl. by rewrite Hc.
Qed.

(** X9.  Whenever [/analyze] answers, the status code is 200: either the
    report of the agent, which is then also what [analysis_output.json]
    holds, or, when a cached article lacked a field, a "warning" that
    carries the cached articles and the text of the [KeyError], with
    [analysis_output.json] untouched.  The answer with status "error" and
    code 500 is never given: whenever the agent raises one of the modelled
    exceptions, the cache file exists. *)
Theorem analyze_news_answers h resp h' :
  analyze_news h = (Done resp, h') →
  resp.2 = 200%Z ∧ stdin h' = stdin h ∧ stdout h' = stdout h ∧
  ((∃ report,
      resp.1 = JsonReport report ∧
      analyze_government_news (world h) = (Returned report, world h') ∧
      analysis_output h' = Output report) ∨
   (∃ key cached,
      resp.1 = JsonCached "warning"
                 ("⚠️ Live fetch failed: " +:+ exn_str (KeyError key)
                    +:+ ". Using cached news.") cached ∧
      cache (world h') = Stored cached ∧ ¬ Forall populated cached ∧
      analysis_output h' = analysis_output h)).
Proof.
  rewrite analyze_news_run.
  destruct (analyze_government_news (world h)) as [[report|e] w] eqn:Hrun.
  - intros [= <- <-]. simpl. do 3 (split; [done|]). left. eauto.
  - apply analyze_government_news_outcome in Hrun
      as [(-> & Hc & _)|(key & batch & -> & Hc & _ & Hnot)]; rewrite Hc.
    + done.
    + intros [= <- <-]. simpl. do 3 (split; [done|]). right.
      by exists key, batch.
Qed.

(** X10.  [/analyze] raises exactly when the live part yields no article
    and the cache file is corrupt: the decoding error is raised once by
    the agent and once more by the fallback of the view, which reads the
    same file. *)
Theorem analyze_news_raises_iff h :
  (∃ e h', analyze_news h = (Failed e, h')) ↔
  (∃ w1, live_articles (world h) = (Returned [], w1)) ∧
  cache (world h) = Corrupt.
Proof.
  split.
  - intros (e & h' & Hfail). rewrite analyze_news_run in Hfail.
    destruct (analyze_government_news (world h)) as [[report|e'] w] eqn:Hrun;
      [done|].
    apply analyze_government_news_outcome in Hrun
      as [(_ & _ & Hc & Hlive)|(key & batch & _ & Hc & _)]; [done|].
    by rewrite Hc in Hfail.
  - intros [[w1 Hlive] Hc].
    destruct (analyze_government_news_corrupt _ _ Hlive Hc)
      as (w' & Hrun & Hc').
    rewrite analyze_news_run, Hrun, Hc'. eauto.
Qed.

(** X11.  A cached article without one of its three fields, used because
    no live article was found, makes [/analyze] answer with the "warning"
    that carries the raw cached articles: the agent has written them back
    to the cache file before the analysis raised [KeyError]. *)
Theorem analyze_news_malformed_cache h w1 cached :
  live_articles (world h) = (Returned [], w1) →
  cache (world h) = Stored cached → cached ≠ [] →
  ¬ Forall populated cached →
  ∃ key h',
    analyze_news h
    = (Done (JsonCached "warning"
               ("⚠️ Live fetch failed: " +:+ exn_str (KeyError key)
                  +:+ ". Using cached news.") cached, 200%Z), h') ∧
    cache (world h') = Stored cached ∧
    analysis_output h' = analysis_output h.
Proof.
  intros Hlive Hc Hne Hnot.
  destruct (aggregate_run _ _ _ Hlive) as (w2 & Hagg & Hc2).
  rewrite (live_articles_cache _ _ _ Hlive), Hc in Hagg, Hc2.
  destruct cached as [|art rest]; [done|]. simpl in Hagg, Hc2.
  rewrite analyze_news_run. unfold analyze_government_news.
  rewrite bind_run, Hagg, bind_run.
  destruct (analyse_articles (art :: rest) [] w2) as [[results|e] w3] eqn:Hloop;
    apply analyse_articles_outcome in Hloop as (Hc3 & _ & Hres).
  - by destruct Hres as (Hpop & _).
  - destruct Hres as ([key ->] & _). rewrite Hc3, Hc2.
    eexists key, _. split; [reflexivity|]. simpl. by rewrite Hc3.
Qed.

(** ** app.py: /ask *)

(** X12.  [/ask] reads the body and strips the question before its [try]:
    a body that cannot be decoded lets the error of [get_json] escape, a
    body that is not a JSON object or a question that is not a string
    lets an [AttributeError] escape, all without any effect.  For a
    question that is a string (or is missing, which counts as empty): when
    it is blank after [strip] the answer is 400 without any effect;
    otherwise it is 200 with the answer and the date after exactly one
    call of the AI service, also when that call fails (the error text is
    then the answer); only a date that splits into no word gives 500. *)
Theorem ask_question_responds py posted h :
  (posted = PayloadInvalid →
   ask_question py posted h = (Failed (HTTPException "400 Bad Request"), h)) ∧
  (posted = PayloadOther →
   ask_question py posted h = (Failed (AttributeError "get"), h)) ∧
  (∀ fields,
     posted = PayloadObject fields → fields !! "question" = Some FieldOther →
     ask_question py posted h = (Failed (AttributeError "strip"), h)) ∧
  (∀ fields text,
     posted = PayloadObject fields →
     (fields !! "question" = Some (FieldString text) ∨
      (fields !! "question" = None ∧ text = "")) →
     let question := str_strip py text in
     (question = "" →
      ask_question py posted h
      = (Done (JsonDict {[ "error" := "Question is required" ]}, 400%Z), h)) ∧
     (question ≠ "" →
      ∀ year,
        last (str_split py (long_date py (now (world h)))) = Some year →
        ∃ h',
          ask_question py posted h
          = (Done (JsonDict
                     {[ "answer" :=
                          answer_text
                            (ai (world h) (ai_calls (world h))
                                "gemini-2.0-flash"
                                (question_prompt
                                   (long_date py (now (world h)))
                                   question year));
                        "date_used" := long_date py (now (world h)) ]},
                   200%Z), h') ∧
          ai_step (world h) (world h') ∧ host_keeps h h') ∧
     (question ≠ "" →
      str_split py (long_date py (now (world h))) = [] →
      ask_question py posted h
      = (Done (JsonDict
                 {[ "error" := "⚠️ Failed to answer question: "
                               +:+ "list index out of range" ]}, 500%Z), h))).
Proof.
  split; [by intros ->|]. split; [by intros ->|]. split.
  { intros fields -> Hq. unfold ask_question, get_json.
    rewrite host_ret_bind_eq. unfold field_get. rewrite Hq.
    by rewrite host_ret_bind_eq. }
  intros fields text -> Hq question.
  assert (Hask : ask_question py (PayloadObject fields) h
                 = match question with
                   | "" =>
                       (Done (JsonDict {[ "error" := "Question is required" ]},
                              400%Z), h)
                   | _ =>
                       host_try
                         ((answer ← citizen_question py question;
                           mret (JsonDict answer, 200%Z)) : H response)
                         (λ e,
                          mret (JsonDict
                                  {[ "error" :=
                                       "⚠️ Failed to answer question: "
                                       +:+ host_exn_str e ]}, 500%Z)) h
                   end).
  { unfold ask_question, get_json. rewrite host_ret_bind_eq.
    unfold field_get.
    destruct Hq as [->|[-> ->]]; rewrite !host_ret_bind_eq;
      unfold field_strip; rewrite host_ret_bind_eq; fold question;
      by destruct question. }
  rewrite Hask. clear Hask. split; [|split].
  - by intros ->.
  - intros Hne year Hyear.
    destruct (citizen_question_run py question h year Hyear)
      as (h' & Hrun & Hstep & Hkeep).
    exists h'. destruct question as [|a q]; [done|].
    unfold host_try. by rewrite host_bind_run, Hrun.
  - intros Hne Hnil. destruct question as [|a q] eqn:Hquestion; [done|].
    unfold host_try. rewrite host_bind_run.
    unfold citizen_question.
    rewrite host_bind_run. unfold lift at 1, now_long_date. simpl.
    rewrite set_world_same, host_bind_run.
    unfold last_item. by rewrite Hnil.
Qed.

(** ** app.py: /recommend *)

(** The [try] of [/recommend] for a given context: the handler is never
    entered. *)
Lemma recommend_try topic handler h :
  ∃ h',
    host_try
      (result ← lift (policy_recommendation topic);
       mret (JsonDict
               {[ "recommendation" :=
                    dict_get result "recommendations"
                      "⚠️ No recommendation generated." ]}, 200%Z))
      handler h
    = (Done (JsonDict
               {[ "recommendation" :=
                    recommendation_text
                      (ai (world h) (ai_calls (world h)) "gemini-2.0-flash"
                          (policy_prompt topic)) ]}, 200%Z), h') ∧
    ai_step (world h) (world h') ∧ host_keeps h h'.
Proof.
  destruct (policy_recommendation_run topic (world h))
    as (d & w' & Hrun & Hstep & Htext).
  exists (set_world w' h). split; [|done].
  unfold host_try. rewrite host_bind_run. unfold lift. rewrite Hrun. simpl.
  by rewrite Htext.
Qed.

(** X13.  A topic posted to [/recommend] that is not blank after [strip]
    is the context given to the AI service; [analysis_output.json] is not
    looked at, so even an undecodable file does no harm.  The answer is 200
    with the recommendation, after exactly one call. *)
Theorem recommend_posted_topic py request h topic :
  method request = POST →
  str_strip py (dict_get (json request) "topic" "") = topic → topic ≠ "" →
  ∃ h',
    recommend_policy_endpoint py request h
    = (Done (JsonDict
               {[ "recommendation" :=
                    recommendation_text
                      (ai (world h) (ai_calls (world h)) "gemini-2.0-flash"
                          (policy_prompt topic)) ]}, 200%Z), h') ∧
    ai_step (world h) (world h') ∧ host_keeps h h'.
Proof.
  intros Hm Ht Hne. unfold recommend_policy_endpoint. rewrite Hm, Ht.
  destruct topic as [|a t]; [done|].
  rewrite host_bind_run. simpl. apply recommend_try.
Qed.

(** X14.  Without a usable topic (a GET, or a POST whose topic is blank
    after [strip]) the context is built from [analysis_output.json]: the
    analysis texts of the stored report joined by newlines, or a fixed
    sentence when the file does not exist. *)
Theorem recommend_stored_context py request h :
  (method request = GET ∨
   str_strip py (dict_get (json request) "topic" "") = "") →
  match analysis_output h with
  | Output report =>
      ∃ h',
        recommend_policy_endpoint py request h
        = (Done (JsonDict
                   {[ "recommendation" :=
                        recommendation_text
                          (ai (world h) (ai_calls (world h)) "gemini-2.0-flash"
                              (policy_prompt (joined_analyses report))) ]},
                 200%Z), h') ∧
        ai_step (world h) (world h') ∧ host_keeps h h'
  | NoOutput =>
      ∃ h',
        recommend_policy_endpoint py request h
        = (Done (JsonDict
                   {[ "recommendation" :=
                        recommendation_text
                          (ai (world h) (ai_calls (world h)) "gemini-2.0-flash"
                              (policy_prompt
                                 "Current government policy and recent news in Kenya.")) ]},
                 200%Z), h') ∧
        ai_step (world h) (world h') ∧ host_keeps h h'
  | BadOutput =>
      recommend_policy_endpoint py request h
      = (Failed (AgentError (JSONDecodeError "Expecting value")), h)
  end.
Proof.
  intros Htopic. unfold recommend_policy_endpoint.
  assert (match method request with
          | GET => ""
          | POST => str_strip py (dict_get (json request) "topic" "")
          end = "") as ->.
  { destruct Htopic as [->| ->]; [done|]. by destruct (method request). }
  rewrite host_bind_run. rewrite host_bind_run.
  unfold output_exists, json_load_output.
  destruct (analysis_output h) as [| |report] eqn:Ho; simpl.
  - apply recommend_try.
  - rewrite host_bind_run. by rewrite Ho.
  - rewrite host_bind_run. rewrite Ho. simpl. apply recommend_try.
Qed.

(** X15.  Whenever [/recommend] answers, the status code is 200 and the
    body is a recommendation that is not empty, obtained by exactly one
    call of the AI service; a failure of that call is not reported as an
    error: its text is the recommendation.  The answer with code 500 is
    never given. *)
Theorem recommend_answers py request h resp h' :
  recommend_policy_endpoint py request h = (Done resp, h') →
  resp.2 = 200%Z ∧
  (∃ text, resp.1 = JsonDict {[ "recommendation" := text ]} ∧ text ≠ "") ∧
  ai_step (world h) (world h') ∧ host_keeps h h'.
Proof.
  unfold recommend_policy_endpoint. rewrite host_bind_run.
  set (topic := match method request with
                | GET => ""
                | POST => str_strip py (dict_get (json request) "topic" "")
                end).
  assert (Htry : ∀ context handler,
    host_try
      (result ← lift (policy_recommendation context);
       mret (JsonDict
               {[ "recommendation" :=
                    dict_get result "recommendations"
                      "⚠️ No recommendation generated." ]}, 200%Z))
      handler h = (Done resp, h') →
    resp.2 = 200%Z ∧
    (∃ text, resp.1 = JsonDict {[ "recommendation" := text ]} ∧ text ≠ "") ∧
    ai_step (world h) (world h') ∧ host_keeps h h').
  { intros context handler Hrun.
    destruct (recommend_try context handler h) as (h2 & Heq & Hstep & Hkeep).
    rewrite Heq in Hrun. injection Hrun as <- <-. simpl.
    split; [done|]. split; [|done]. eexists. split; [done|].
    apply recommendation_text_nonempty. }
  destruct topic as [|a t].
  - rewrite host_bind_run. unfold output_exists, json_load_output.
    destruct (analysis_output h) as [| |report] eqn:Ho; simpl.
    + apply Htry.
    + rewrite host_bind_run. by rewrite Ho.
    + rewrite host_bind_run. rewrite Ho. simpl. apply Htry.
  - simpl. apply Htry.
Qed.

(** X16.  After [/analyze] has answered with a report, a GET of
    [/recommend] asks the AI service about exactly the analysis texts of
    that report, joined by newlines: the report travels through
    [analysis_output.json]. *)
Theorem recommend_after_analyze py request h report h1 :
  analyze_news h = (Done (JsonReport report, 200%Z), h1) →
  method request = GET →
  ∃ h2,
    recommend_policy_endpoint py request h1
    = (Done (JsonDict
               {[ "recommendation" :=
                    recommendation_text
                      (ai (world h1) (ai_calls (world h1)) "gemini-2.0-flash"
                          (policy_prompt (joined_analyses report))) ]},
             200%Z), h2) ∧
    ai_step (world h1) (world h2) ∧ analysis_output h2 = Output report.
Proof.
  intros Hrun Hm. rewrite analyze_news_run in Hrun.
  assert (Ho : analysis_output h1 = Output report).
  { destruct (analyze_government_news (world h)) as [[r|e] w].
    - by injection Hrun as <- <-.
    - by destruct (cache w). }
  unfold recommend_policy_endpoint. rewrite Hm.
  rewrite host_bind_run. rewrite host_bind_run.
  unfold output_exists, json_load_output. rewrite Ho. simpl.
  rewrite host_bind_run. rewrite Ho. simpl.
  destruct (recommend_try (joined_analyses report)
              (λ e, mret (JsonDict
                            {[ "error" :=
                                 "⚠️ Failed to generate policy recommendation: "
                                 +:+ host_exn_str e ]}, 500%Z)) h1)
    as (h2 & Heq & Hstep & Hkeep).
  exists h2. split; [exact Heq|]. split; [done|].
  destruct Hkeep as (-> & _). done.
Qed.

(** ** main.py *)

Lemma report_shape w report w' :
  analyze_government_news w = (Returned report, w') →
  analyses report ≠ [] ∧ Forall complete (analyses report).
Proof.
  unfold analyze_government_news. rewrite bind_run.
  destruct (aggregate w) as [[batch|e] w1] eqn:Hagg; [|done].
  rewrite bind_run.
  destruct (analyse_articles batch [] w1) as [[results|e] w2] eqn:Hloop; [|done].
  rewrite bind_run. unfold now_isoformat. intros [= <- <-]. simpl.
  apply aggregate_nonempty in Hagg.
  apply analyse_articles_outcome in Hloop as (_ & _ & _ & -> & _). simpl.
  split; [by destruct batch|].
  apply Forall_forall. intros item Hin.
  apply list_elem_of_lookup in Hin as [i Hi].
  rewrite list_lookup_imap in Hi.
  destruct (batch !! i) as [art|]; [|done]. injection Hi as <-.
  apply analysis_item_complete.
Qed.

Lemma lift_getitem (d : gmap string string) key v h :
  d !! key = Some v → lift (getitem d key) h = (Done v, h).
Proof.
  intros Hd. unfold lift. rewrite (getitem_run _ _ _ _ Hd).
  by rewrite set_world_same.
Qed.

(** Printing complete items never raises and prints four lines each. *)
Lemma print_analyses_run items :
  Forall complete items →
  ∀ i h, ∃ lines,
    print_analyses i items h
    = (Done tt,
       {| world := world h; analysis_output := analysis_output h;
          stdin := stdin h; stdout := stdout h ++ lines |}) ∧
    length lines = (4 * length items)%nat.
Proof.
  induction 1 as [|art rest Hart _ IH]; intros i h; simpl.
  - exists []. rewrite app_nil_r. by destruct h.
  - destruct Hart as ([title Ht] & [source Hs] & (text & Hx & _)).
    rewrite host_bind_run, (lift_getitem _ _ _ _ Ht).
    rewrite host_bind_run. unfold say at 1.
    rewrite host_bind_run, (lift_getitem _ _ _ _ Hx).
    rewrite host_bind_run. unfold say at 1.
    rewrite host_bind_run, (lift_getitem _ _ _ _ Hs).
    rewrite host_bind_run. unfold say at 1.
    rewrite host_bind_run. unfold say at 1. simpl.
    match goal with
    | |- context [print_analyses (S i) rest ?h0] =>
        destruct (IH (S i) h0) as (lines & -> & Hlen)
    end.
    exists ([OutArticle i title; OutAnalysis text; OutSource source; OutRule]
            ++ lines).
    simpl. split; [|lia]. do 2 f_equal. by rewrite <- !app_assoc.
Qed.

(** The body of [if command == "start":]: when the analysis returns,
    every item is printed and the report is saved; when it raises, the
    exception is passed on and nothing is saved. *)
Lemma run_analysis_run h :
  match analyze_government_news (world h) with
  | (Returned report, w') =>
      ∃ lines,
        run_analysis h
        = (Done tt,
           {| world := w'; analysis_output := Output report;
              stdin := stdin h;
              stdout := stdout h ++ [OutRunning; OutFetching; OutHeader]
                          ++ lines ++ [OutSaved] |}) ∧
        length lines = (4 * length (analyses report))%nat
  | (Raised e, w') =>
      run_analysis h
      = (Failed (AgentError e),
         {| world := w'; analysis_output := analysis_output h;
            stdin := stdin h;
            stdout := stdout h ++ [OutRunning; OutFetching] |})
  end.
Proof.
  destruct (analyze_government_news (world h)) as [[report|e] w'] eqn:Hrun.
  - destruct (report_shape _ _ _ Hrun) as (Hne & Hall).
    unfold run_analysis.
    rewrite host_bind_run. unfold say at 1.
    rewrite host_bind_run. unfold say at 1.
    rewrite host_bind_run. unfold lift at 1. simpl. rewrite Hrun.
    rewrite host_bind_run. unfold say at 1. simpl.
    destruct (analyses report) as [|item items] eqn:Hitems; [done|].
    rewrite host_bind_run.
    match goal with
    | |- context [print_analyses 1 _ ?h0] =>
        destruct (print_analyses_run _ Hall 1%nat h0) as (lines & -> & Hlen)
    end.
    exists lines. split; [|done]. simpl. unfold host_try.
    rewrite host_bind_run. unfold json_dump_output, say. simpl.
    do 2 f_equal. by rewrite <- !app_assoc.
  - unfold run_analysis.
    rewrite host_bind_run. unfold say at 1.
    rewrite host_bind_run. unfold say at 1.
    rewrite host_bind_run. unfold lift at 1. simpl. rewrite Hrun.
    unfold set_world. simpl. do 2 f_equal. by rewrite <- app_assoc.
Qed.

(** One round of the question loop on a line that does not quit. *)
Lemma question_loop_round py year fuel h line rest :
  stdin h = line :: rest → ¬ quits py line →
  last (str_split py (long_date py (now (world h)))) = Some year →
  ∃ h1,
    question_loop py (S fuel) h = question_loop py fuel h1 ∧
    stdin h1 = rest ∧ analysis_output h1 = analysis_output h ∧
    requests (world h1) = requests (world h) ∧
    cache (world h1) = cache (world h) ∧ now (world h1) = now (world h) ∧
    ai_calls (world h1)
    = (ai_calls (world h) + length (asked py [line]))%nat.
Proof.
  intros Hin Hq Hyear. simpl question_loop.
  rewrite host_bind_run. unfold input. rewrite Hin.
  rewrite bool_decide_eq_false_2 by exact Hq.
  unfold asked. simpl.
  destruct (str_strip py line) as [|a q] eqn:Hstrip.
  - eexists. split; [reflexivity|]. simpl. rewrite Nat.add_0_r. done.
  - rewrite host_bind_run. unfold say at 1.
    rewrite host_bind_run.
    match goal with
    | |- context [citizen_question py ?q0 ?h0] =>
        destruct (citizen_question_run py q0 h0 year Hyear)
          as (h3 & -> & Hstep & Hkeep)
    end.
    rewrite host_bind_run. unfold say at 1.
    rewrite host_bind_run. unfold say at 1.
    rewrite host_bind_run. unfold say at 1.
    eexists. split; [reflexivity|]. simpl.
    destruct Hkeep as (Ho & Hi & _). simpl in Ho, Hi.
    destruct Hstep as (_ & Hr & Hc & _ & Hn & Hnow & _).
    simpl in Hr, Hc, Hn, Hnow.
    rewrite Hi, Ho, Hr, Hc, Hnow, Hn. repeat split; try done. lia.
Qed.

Lemma asked_cons py line lines :
  asked py (line :: lines) = asked py [line] ++ asked py lines.
Proof. unfold asked. simpl. by destruct (negb _). Qed.

(** The loop answers the lines before the first one that quits. *)
Lemma question_loop_until_exit py year :
  ∀ qs fuel h e rest,
    stdin h = qs ++ e :: rest →
    Forall (λ line, ¬ quits py line) qs → quits py e →
    last (str_split py (long_date py (now (world h)))) = Some year →
    (length qs < fuel)%nat →
    ∃ h',
      question_loop py fuel h = (Done true, h') ∧
      stdin h' = rest ∧ analysis_output h' = analysis_output h ∧
      requests (world h') = requests (world h) ∧
      cache (world h') = cache (world h) ∧
      ai_calls (world h')
      = (ai_calls (world h) + length (asked py qs))%nat.
Proof.
  induction qs as [|q qs IH]; intros fuel h e rest Hin Hqs He Hyear Hfuel;
    destruct fuel as [|fuel]; try (simpl in Hfuel; lia).
  - simpl in Hin. simpl question_loop.
    rewrite host_bind_run. unfold input. rewrite Hin.
    rewrite bool_decide_eq_true_2 by exact He.
    rewrite host_bind_run. unfold say.
    eexists. split; [reflexivity|]. simpl. rewrite Nat.add_0_r. done.
  - simpl in Hin. inversion Hqs as [|? ? Hq Hqs']; subst.
    destruct (question_loop_round py year fuel h q _ Hin Hq Hyear)
      as (h1 & -> & Hi1 & Ho1 & Hr1 & Hc1 & Hnow1 & Hn1).
    destruct (IH fuel h1 e rest Hi1 Hqs' He) as (h' & Hrun & Hi & Ho & Hr & Hc & Hn).
    { by rewrite Hnow1. }
    { simpl in Hfuel. lia. }
    exists h'. split; [done|]. rewrite asked_cons, length_app.
    repeat split; try congruence. lia.
Qed.

(** The loop answers every line and then fails on the end of the input
    when no line quits. *)
Lemma question_loop_until_eof py year :
  ∀ qs fuel h,
    stdin h = qs →
    Forall (λ line, ¬ quits py line) qs →
    last (str_split py (long_date py (now (world h)))) = Some year →
    (length qs < fuel)%nat →
    ∃ h',
      question_loop py fuel h
      = (Failed (EOFError "EOF when reading a line"), h') ∧
      stdin h' = [] ∧ analysis_output h' = analysis_output h ∧
      requests (world h') = requests (world h) ∧
      cache (world h') = cache (world h) ∧
      ai_calls (world h')
      = (ai_calls (world h) + length (asked py qs))%nat.
Proof.
  induction qs as [|q qs IH]; intros fuel h Hin Hqs Hyear Hfuel;
    destruct fuel as [|fuel]; try (simpl in Hfuel; lia).
  - simpl question_loop. rewrite host_bind_run. unfold input. rewrite Hin.
    eexists. split; [reflexivity|]. simpl. rewrite Nat.add_0_r. done.
  - inversion Hqs as [|? ? Hq Hqs']; subst.
    destruct (question_loop_round py year fuel h q _ Hin Hq Hyear)
      as (h1 & -> & Hi1 & Ho1 & Hr1 & Hc1 & Hnow1 & Hn1).
    destruct (IH fuel h1 Hi1 Hqs') as (h' & Hrun & Hi & Ho & Hr & Hc & Hn).
    { by rewrite Hnow1. }
    { simpl in Hfuel. lia. }
    exists h'. split; [done|]. rewrite asked_cons, length_app.
    repeat split; try congruence. lia.
Qed.

Lemma say_bind {B} line (f : unit → H B) h :
  (say line ≫= f) h
  = f tt {| world := world h; analysis_output := analysis_output h;
            stdin := stdin h; stdout := stdout h ++ [line] |}.
Proof. reflexivity. Qed.

Lemma input_bind {B} prompt (f : string → H B) h line rest :
  stdin h = line :: rest →
  (input prompt ≫= f) h
  = f line {| world := world h; analysis_output := analysis_output h;
              stdin := rest; stdout := stdout h ++ [prompt] |}.
Proof. intros Hin. rewrite host_bind_run. unfold input. by rewrite Hin. Qed.

Lemma host_ret_bind {A B} (a : A) (f : A → H B) h : (mret a ≫= f) h = f a h.
Proof. reflexivity. Qed.

Lemma pending_bind {B} (f : nat → H B) h :
  ((λ h, (Done (length (stdin h)), h)) ≫= f) h = f (length (stdin h)) h.
Proof. reflexivity. Qed.

Lemma citizen_question_done py question h d h' :
  citizen_question py question h = (Done d, h') → host_keeps h h'.
Proof.
  destruct (last (str_split py (long_date py (now (world h)))))
    as [year|] eqn:Hyear.
  - destruct (citizen_question_run py question h year Hyear)
      as (h2 & -> & _ & Hkeep). by intros [= _ <-].
  - unfold citizen_question.
    rewrite host_bind_run. unfold lift at 1, now_long_date. simpl.
    rewrite set_world_same, host_bind_run.
    unfold last_item. by rewrite Hyear.
Qed.

(** The fuel [main] gives to the loop never runs out: every round reads a
    line. *)
Lemma question_loop_fuel py :
  ∀ fuel h h',
    (length (stdin h) < fuel)%nat →
    question_loop py fuel h ≠ (Done false, h').
Proof.
  induction fuel as [|fuel IH]; intros h h' Hfuel; [lia|].
  simpl question_loop. rewrite host_bind_run. unfold input.
  destruct (stdin h) as [|line rest] eqn:Hin; [done|].
  simpl in Hfuel. case_bool_decide.
  - rewrite host_bind_run. by unfold say.
  - destruct (str_strip py line) as [|a q].
    + apply IH. simpl. lia.
    + rewrite host_bind_run. unfold say at 1. rewrite host_bind_run.
      match goal with
      | |- context [citizen_question py ?q0 ?h0] =>
          destruct (citizen_question py q0 h0) as [[d|e] h3] eqn:Hq
      end; [|done].
      apply citizen_question_done in Hq as (_ & Hi & _). simpl in Hi.
      rewrite host_bind_run. unfold say at 1.
      rewrite host_bind_run. unfold say at 1.
      rewrite host_bind_run. unfold say at 1.
      apply IH. simpl. rewrite Hi. lia.
Qed.

Lemma dict_get_lookup (d : gmap string string) key v default :
  d !! key = Some v → dict_get d key default = v.
Proof. intros Hd. unfold dict_get. by rewrite Hd. Qed.

(** The lines printed for complete items are [printed]. *)
Lemma print_analyses_lines items :
  Forall complete items →
  ∀ i h,
    print_analyses i items h
    = (Done tt,
       {| world := world h; analysis_output := analysis_output h;
          stdin := stdin h; stdout := stdout h ++ printed i items |}).
Proof.
  induction 1 as [|art rest Hart _ IH]; intros i h.
  - simpl. rewrite app_nil_r. by destruct h.
  - destruct Hart as ([title Ht] & [source Hs] & (text & Hx & _)).
    cbn [print_analyses printed].
    rewrite (dict_get_lookup _ _ _ _ Ht), (dict_get_lookup _ _ _ _ Hx),
      (dict_get_lookup _ _ _ _ Hs).
    rewrite host_bind_run, (lift_getitem _ _ _ _ Ht), say_bind.
    rewrite host_bind_run, (lift_getitem _ _ _ _ Hx), say_bind.
    rewrite host_bind_run, (lift_getitem _ _ _ _ Hs), say_bind.
    rewrite say_bind, IH. cbn [world analysis_output stdin stdout].
    do 2 f_equal. by rewrite <- !app_assoc.
Qed.

(** The body of [if command == "start":] when the analysis returns: the
    report is printed item by item, then written to
    [analysis_output.json]. *)
Lemma run_analysis_lines h report w' :
  analyze_government_news (world h) = (Returned report, w') →
  analyses report ≠ [] ∧
  run_analysis h
  = (Done tt,
     {| world := w'; analysis_output := Output report; stdin := stdin h;
        stdout := stdout h ++ [OutRunning; OutFetching; OutHeader]
                    ++ printed 1 (analyses report) ++ [OutSaved] |}).
Proof.
  intros Hrun. destruct (report_shape _ _ _ Hrun) as (Hne & Hall).
  split; [exact Hne|].
  unfold run_analysis. rewrite !say_bind.
  rewrite host_bind_run. unfold lift at 1.
  cbn [world analysis_output stdin stdout]. rewrite Hrun.
  unfold set_world. cbn [world analysis_output stdin stdout].
  rewrite say_bind. cbn [world analysis_output stdin stdout].
  destruct (analyses report) as [|item items] eqn:Hitems; [done|].
  rewrite host_bind_run, (print_analyses_lines _ Hall).
  cbn [world analysis_output stdin stdout].
  unfold host_try. rewrite host_bind_run. unfold json_dump_output, say.
  cbn [world analysis_output stdin stdout].
  do 2 f_equal. by rewrite <- !app_assoc.
Qed.





(** X18.  [main] started with "start": when the analysis raises (a
    corrupt cache file with no live article, or a cached article without
    one of its fields), the exception leaves [main] at once: no question
    is read and [analysis_output.json] is not written. *)
Theorem main_start_raises py h cmd lines err w1 :
  stdin h = cmd :: lines →
  str_lower py (str_strip py cmd) = "start" →
  analyze_government_news (world h) = (Raised err, w1) →
  ∃ h',
    main py h = (Failed (AgentError err), h') ∧
    world h' = w1 ∧ analysis_output h' = analysis_output h ∧
    stdin h' = lines.
Proof.
  intros Hin Hcmd Hrun.
  unfold main. rewrite say_bind.
  erewrite input_bind by exact Hin. cbv zeta.
  cbn [world analysis_output stdin stdout].
  rewrite Hcmd, bool_decide_eq_true_2 by done. rewrite host_bind_run.
  match goal with
  | |- context [run_analysis ?h0] =>
      pose proof (run_analysis_run h0) as Hrun0;
      cbn [world analysis_output stdin stdout] in Hrun0
  end.
  rewrite Hrun in Hrun0. rewrite Hrun0. eauto.
Qed.

(** X19.  [main] started with anything but "start" makes no request and
    touches neither file; it answers the lines typed up to the first
    "exit" or "quit" (in any case, with blanks around), with one call of
    the AI service for each line that is not blank, leaves the lines after
    it unread and returns. *)
Theorem main_questions_only py h cmd qs e rest year :
  stdin h = cmd :: qs ++ e :: rest →
  str_lower py (str_strip py cmd) ≠ "start" →
  Forall (λ line, ¬ quits py line) qs → quits py e →
  last (str_split py (long_date py (now (world h)))) = Some year →
  ∃ h',
    main py h = (Done tt, h') ∧ stdin h' = rest ∧
    requests (world h') = requests (world h) ∧
    cache (world h') = cache (world h) ∧
    analysis_output h' = analysis_output h ∧
    ai_calls (world h') = (ai_calls (world h) + length (asked py qs))%nat.
Proof.
  intros Hin Hcmd Hqs He Hyear.
  unfold main. rewrite say_bind.
  erewrite input_bind by exact Hin. cbv zeta.
  cbn [world analysis_output stdin stdout].
  rewrite bool_decide_eq_false_2 by done.
  rewrite host_ret_bind, pending_bind.
  cbn [world analysis_output stdin stdout]. rewrite host_bind_run.
  match goal with
  | |- context [question_loop py ?f ?h0] =>
      destruct (question_loop_until_exit py year qs f h0 e rest)
        as (h' & -> & Hi & Ho & Hr & Hc & Hn); try done;
        [rewrite length_app; simpl; lia|]
  end.
  exists h'. by repeat split.
Qed.

(** X20.  When the input ends before any line quits, [main] fails with
    the [EOFError] of [input()]: at once, with nothing done, when there
    is no line at all; otherwise after the command (any command but
    "start", or "start" with an analysis that returns: one that raises
    ends [main] with its own exception, see X18) and one call of the AI
    service for each typed line that is not blank, the date having a last
    word. *)
Theorem main_end_of_input py h :
  (stdin h = [] →
   ∃ h',
     main py h = (Failed (EOFError "EOF when reading a line"), h') ∧
     world h' = world h ∧ analysis_output h' = analysis_output h ∧
     stdout h' = stdout h ++ [OutActivate; OutCommandPrompt]) ∧
  (∀ cmd qs w1 year,
     stdin h = cmd :: qs →
     (str_lower py (str_strip py cmd) ≠ "start" ∧ w1 = world h) ∨
     (str_lower py (str_strip py cmd) = "start" ∧
      ∃ report, analyze_government_news (world h) = (Returned report, w1)) →
     Forall (λ line, ¬ quits py line) qs →
     last (str_split py (long_date py (now w1))) = Some year →
     ∃ h',
       main py h = (Failed (EOFError "EOF when reading a line"), h') ∧
       stdin h' = [] ∧
       ai_calls (world h') = (ai_calls w1 + length (asked py qs))%nat).
Proof.
  split.
  - intros Hin. unfold main. rewrite say_bind, host_bind_run.
    unfold input. cbn [world analysis_output stdin stdout]. rewrite Hin.
    eexists. split; [reflexivity|].
    cbn [world analysis_output stdin stdout].
    by rewrite <- app_assoc.
  - intros cmd qs w1 year Hin Hcmd Hqs Hyear.
    unfold main. rewrite say_bind.
    erewrite input_bind by exact Hin. cbv zeta.
    cbn [world analysis_output stdin stdout].
    destruct Hcmd as [(Hcmd & ->)|(Hcmd & report & Hrun)].
    + rewrite bool_decide_eq_false_2 by done.
      rewrite host_ret_bind, pending_bind.
      cbn [world analysis_output stdin stdout]. rewrite host_bind_run.
      match goal with
      | |- context [question_loop py ?f ?h0] =>
          destruct (question_loop_until_eof py year qs f h0)
            as (h' & -> & Hi & Ho & Hr & Hc & Hn); try done; [lia|]
      end.
      exists h'. by repeat split.
    + rewrite Hcmd, bool_decide_eq_true_2 by done. rewrite host_bind_run.
      match goal with
      | |- context [run_analysis ?h0] =>
          destruct (run_analysis_lines h0 report w1 Hrun) as (_ & ->)
      end.
      rewrite pending_bind. cbn [world analysis_output stdin stdout].
      rewrite host_bind_run.
      match goal with
      | |- context [question_loop py ?f ?h0] =>
          destruct (question_loop_until_eof py year qs f h0)
            as (h' & -> & Hi & Ho & Hr & Hc & Hn); try done; [lia|]
      end.
      exists h'. by repeat split.
Qed.

End Agent.

(** ** The properties on the sample worlds *)

Lemma sample_batch_populated : Forall populated sample_batch.
Proof. repeat constructor; eexists; reflexivity. Qed.


(** The trace of the three failed attempts, printed lines included. *)
Example scenario_three_attempts :
  trace (fetch_feed sample_parse "u" 3 5
           (sample_world sample_net_down Missing)).2
  = [ EGet "u"; EPrint (WarnFetch "u" 1 3 "unreachable"); ESleep 5;
      EGet "u"; EPrint (WarnFetch "u" 2 3 "unreachable"); ESleep 5;
      EGet "u"; EPrint (WarnFetch "u" 3 3 "unreachable"); ESleep 5;
      EPrint (WarnGaveUp 3 "u") ].
Proof. reflexivity. Qed.

Lemma aggregate_live_batch_witness :
  ∃ w', aggregate sample_parse (sample_world sample_net_mixed Missing)
        = (Returned (take 15 (per_source sample_results)), w') ∧
        length sample_results = length feeds ∧
        length (take 15 (per_source sample_results))
        = (15 `min` sum_list_with
                      (λ r, 5 `min` length (live_entries r)) sample_results)%nat.
Proof.
  eapply (aggregate_live_batch sample_parse
            (sample_world sample_net_mixed Missing) sample_results).
  - apply run_returned. reflexivity.
  - apply Exists_cons_hd. simpl. discriminate.
Defined.

Example scenario_three_and_twenty :
  (aggregate sample_parse (sample_world sample_net_mixed Missing)).1
  = Returned
      (replicate 3 {[ "title" := "a"; "link" := "No link";
                      "summary" := "No summary available." ]}
       ++ replicate 5 {[ "title" := "b"; "link" := "No link";
                         "summary" := "No summary available." ]}).
Proof. reflexivity. Qed.

Lemma aggregate_placeholder_witness :
  (∃ w', aggregate sample_parse (sample_world sample_net_down Missing)
         = (Returned [fallback_article], w')) ∧
  [fallback_article] ≠ [].
Proof.
  split.
  - eapply (proj1 (aggregate_placeholder sample_parse
                     (sample_world sample_net_down Missing))).
    + apply run_returned. reflexivity.
    + reflexivity.
  - eapply (proj1 (proj2 (aggregate_placeholder sample_parse
                            (sample_world sample_net_down Missing)))).
    apply run_returned. reflexivity.
Defined.



Lemma aggregate_cached_batch_witness :
  ∃ w', aggregate sample_parse (sample_world sample_net_down (Stored sample_batch))
        = (Returned sample_batch, w').
Proof.
  eapply (aggregate_cached_batch sample_parse
            (sample_world sample_net_down (Stored sample_batch))).
  - apply run_returned. reflexivity.
  - reflexivity.
  - discriminate.
Defined.

Lemma aggregate_saves_batch_witness :
  cache (sample_world sample_net_mixed (Stored sample_batch))
  = Stored sample_batch ∧
  Stored sample_batch ≠ Stored (take 15 (per_source sample_results)) ∧
  ∃ w',
    aggregate sample_parse (sample_world sample_net_mixed (Stored sample_batch))
    = (Returned (take 15 (per_source sample_results)), w') ∧
    cache w' = Stored (take 15 (per_source sample_results)).
Proof.
  split; [reflexivity|]. split.
  { intros Heq.
    apply (f_equal (λ c, match c with
                         | Stored batch => length batch
                         | _ => 0%nat
                         end)) in Heq.
    rewrite length_take, length_per_source in Heq. simpl in Heq.
    discriminate Heq. }
  destruct (aggregate_saves_batch sample_parse
              (sample_world sample_net_mixed (Stored sample_batch)))
    as (live & w1 & Hlive & Hsaved & _).
  rewrite (run_returned (live_articles sample_parse)
             (sample_world sample_net_mixed (Stored sample_batch))
             (take 15 (per_source sample_results)) eq_refl) in Hlive.
  apply returned_inj in Hlive. subst live. apply Hsaved.
  intros Hnil. apply (f_equal length) in Hnil.
  rewrite length_take, length_per_source in Hnil. simpl in Hnil.
  discriminate Hnil.
Defined.

(** The cache file before and after a run that falls back to the built-in
    article, and a run that finds live articles over a corrupt file. *)
Example scenario_cache_overwritten :
  cache (aggregate sample_parse (sample_world sample_net_down Missing)).2
  = Stored [fallback_article] ∧
  cache (aggregate sample_parse (sample_world sample_net_mixed Corrupt)).2
  = Stored (take 15 (per_source sample_results)).
Proof. split; reflexivity. Qed.

Lemma article_fields_populated_witness :
  Forall populated sample_batch.
Proof.
  eapply (proj2 (proj2 (article_fields_populated sample_parse
                          (sample_world sample_net_down (Stored sample_batch))))).
  - intros cached [= <-]. apply sample_batch_populated.
  - apply run_returned. reflexivity.
Defined.

Lemma aggregate_twice_same_cache_witness :
  cache (aggregate sample_parse
           (aggregate sample_parse
              (sample_world sample_net_mixed Missing)).2).2
  = cache (aggregate sample_parse (sample_world sample_net_mixed Missing)).2 ∧
  (aggregate sample_parse
     (aggregate sample_parse (sample_world sample_net_mixed Missing)).2).1
  = (aggregate sample_parse (sample_world sample_net_mixed Missing)).1.
Proof.
  eapply (aggregate_twice_same_cache sample_parse
            (sample_world sample_net_mixed Missing) _ _ _ _
            (take 15 (per_source sample_results))).
  - apply surjective_pairing.
  - apply surjective_pairing.
  - apply run_returned. reflexivity.
  - apply run_returned. reflexivity.
Defined.

Lemma analysis_one_per_article_witness :
  ∃ results w',
    analyse_articles sample_batch [] (sample_world sample_net_down Missing)
    = (Returned results, w') ∧ length results = length sample_batch.
Proof.
  destruct (analysis_one_per_article sample_batch
              (sample_world sample_net_down Missing) sample_batch_populated)
    as (results & w' & Hrun & Hlen & _).
  by exists results, w'.
Defined.

Example scenario_sample_analyses :
  (analyse_articles sample_batch [] (sample_world sample_net_down Missing)).1
  = Returned (analyses sample_report).
Proof. reflexivity. Qed.

Lemma report_is_success_witness :
  status sample_report = "success" ∧ analyses sample_report ≠ [].
Proof.
  eapply (report_is_success sample_parse
            (sample_world sample_net_down (Stored sample_batch)) sample_report).
  apply run_returned. reflexivity.
Defined.

(** ** The further properties on the sample worlds *)

Lemma fetch_feed_no_retries_witness :
  ∃ w', fetch_feed sample_parse "u" 0 (-1) (sample_world sample_net_down Missing)
        = (Returned None, w') ∧
        net_step (sample_world sample_net_down Missing) w' 0
          [EPrint (WarnGaveUp 0 "u")].
Proof.
  apply (fetch_feed_no_retries sample_parse "u" 0 (-1)). lia.
Defined.



Lemma aggregate_request_bounds_witness :
  (8 ≤ requests (aggregate sample_parse
                   (sample_world sample_net_mixed Missing)).2 ≤ 24)%nat.
Proof.
  destruct (aggregate_request_bounds sample_parse
              (sample_world sample_net_mixed Missing)
              (aggregate sample_parse
                 (sample_world sample_net_mixed Missing)).1
              (aggregate sample_parse
                 (sample_world sample_net_mixed Missing)).2) as [Hn _].
  - apply surjective_pairing.
  - exact Hn.
Defined.

Lemma report_matches_cache_witness :
  ∃ batch,
    cache (analyze_government_news sample_parse
             (sample_world sample_net_down (Stored sample_batch))).2
    = Stored batch ∧
    length (analyses sample_report) = length batch.
Proof.
  destruct (report_matches_cache sample_parse
              (sample_world sample_net_down (Stored sample_batch))
              sample_report
              (analyze_government_news sample_parse
                 (sample_world sample_net_down (Stored sample_batch))).2)
    as (batch & Hc & Hlen & _).
  - apply run_returned. reflexivity.
  - exists batch. split; [exact Hc|exact Hlen].
Defined.

Lemma report_items_complete_witness :
  Forall complete (analyses sample_report).
Proof.
  apply (report_items_complete sample_parse
           (sample_world sample_net_down (Stored sample_batch))
           sample_report
           (analyze_government_news sample_parse
              (sample_world sample_net_down (Stored sample_batch))).2).
  apply run_returned. reflexivity.
Defined.

Lemma citizen_question_answers_witness :
  ∃ answer h',
    citizen_question sample_py "What changed?"
      (sample_host (sample_world sample_net_down Missing) NoOutput [])
    = (Done {[ "answer" := answer;
               "date_used" := "Wednesday, 01 January 2025" ]}, h') ∧
    answer ≠ "".
Proof.
  destruct (proj1 (citizen_question_answers sample_py "What changed?"
                     (sample_host (sample_world sample_net_down Missing)
                        NoOutput [])) "2025")
    as (answer & h' & Hrun & Hne & _).
  - reflexivity.
  - by exists answer, h'.
Defined.

Example scenario_question :
  (citizen_question sample_py "What changed?"
     (sample_host (sample_world sample_net_down Missing) NoOutput [])).1
  = Done {[ "answer" := "analysis";
            "date_used" := "Wednesday, 01 January 2025" ]}.
Proof. reflexivity. Qed.

Example scenario_question_blank_date :
  (citizen_question sample_py_blank_date "What changed?"
     (sample_host (sample_world sample_net_down Missing) NoOutput [])).1
  = Failed (IndexError "list index out of range").
Proof. reflexivity. Qed.

Lemma analyze_news_answers_witness :
  analyze_news sample_parse
    (sample_host (sample_world sample_net_down (Stored sample_batch))
       NoOutput [])
  = (Done (JsonReport sample_report, 200),
     (analyze_news sample_parse
        (sample_host (sample_world sample_net_down (Stored sample_batch))
           NoOutput [])).2) ∧
  (JsonReport sample_report, 200).2 = 200.
Proof.
  split; [apply host_run_done; reflexivity|].
  refine (proj1 (analyze_news_answers sample_parse
                   (sample_host (sample_world sample_net_down
                                   (Stored sample_batch)) NoOutput [])
                   (JsonReport sample_report, 200)
                   (analyze_news sample_parse
                      (sample_host (sample_world sample_net_down
                                      (Stored sample_batch)) NoOutput [])).2
                   _)).
  apply host_run_done. reflexivity.
Defined.

Lemma analyze_news_raises_iff_witness :
  ∃ e h',
    analyze_news sample_parse
      (sample_host (sample_world sample_net_down Corrupt) NoOutput [])
    = (Failed e, h').
Proof.
  apply (analyze_news_raises_iff sample_parse
           (sample_host (sample_world sample_net_down Corrupt) NoOutput [])).
  split; [|reflexivity].
  eexists. apply run_returned. reflexivity.
Defined.

Lemma analyze_news_malformed_cache_witness :
  ∃ key h',
    analyze_news sample_parse
      (sample_host (sample_world sample_net_down (Stored sample_broken_batch))
         NoOutput [])
    = (Done (JsonCached "warning"
               ("⚠️ Live fetch failed: " +:+ exn_str (KeyError key)
                  +:+ ". Using cached news.") sample_broken_batch, 200), h') ∧
    cache (world h') = Stored sample_broken_batch ∧
    analysis_output h' = NoOutput.
Proof.
  eapply (analyze_news_malformed_cache sample_parse
            (sample_host (sample_world sample_net_down
                            (Stored sample_broken_batch)) NoOutput [])).
  - apply run_returned. reflexivity.
  - reflexivity.
  - discriminate.
  - intros Hall. inversion Hall as [|? ? _ Hrest]. inversion Hrest as [|? ? Hb _].
    destruct Hb as (_ & _ & [summary Hs]). discriminate Hs.
Defined.

Example scenario_malformed_cache :
  (analyze_news sample_parse
     (sample_host (sample_world sample_net_down (Stored sample_broken_batch))
        NoOutput [])).1
  = Done (JsonCached "warning"
            "⚠️ Live fetch failed: 'summary'. Using cached news."
            sample_broken_batch, 200).
Proof. reflexivity. Qed.

Lemma ask_question_responds_witness :
  ∃ h',
    ask_question sample_py
      (PayloadObject {[ "question" := FieldString "  What changed? " ]})
      (sample_host (sample_world sample_net_down Missing) NoOutput [])
    = (Done (JsonDict {[ "answer" := "analysis";
                         "date_used" := "Wednesday, 01 January 2025" ]}, 200),
       h').
Proof.
  destruct (ask_question_responds sample_py
              (PayloadObject
                 {[ "question" := FieldString "  What changed? " ]})
              (sample_host (sample_world sample_net_down Missing) NoOutput []))
    as (_ & _ & _ & Hposted).
  destruct (Hposted {[ "question" := FieldString "  What changed? " ]}
              "  What changed? " eq_refl (or_introl eq_refl))
    as (_ & Hanswer & _).
  destruct (Hanswer ltac:(discriminate) "2025" eq_refl) as (h' & Hrun & _).
  exists h'. exact Hrun.
Defined.

(** A blank question, a question that is a number, and a body that is a
    list. *)
Example scenario_blank_question :
  ask_question sample_py (PayloadObject {[ "question" := FieldString "   " ]})
    (sample_host (sample_world sample_net_down Missing) NoOutput [])
  = (Done (JsonDict {[ "error" := "Question is required" ]}, 400),
     sample_host (sample_world sample_net_down Missing) NoOutput []) ∧
  ask_question sample_py (PayloadObject {[ "question" := FieldOther ]})
    (sample_host (sample_world sample_net_down Missing) NoOutput [])
  = (Failed (AttributeError "strip"),
     sample_host (sample_world sample_net_down Missing) NoOutput []) ∧
  ask_question sample_py PayloadOther
    (sample_host (sample_world sample_net_down Missing) NoOutput [])
  = (Failed (AttributeError "get"),
     sample_host (sample_world sample_net_down Missing) NoOutput []).
Proof. repeat split; reflexivity. Qed.

Lemma recommend_posted_topic_witness :
  ∃ h',
    recommend_policy_endpoint sample_py (sample_request POST "topic" " housing ")
      (sample_host (sample_world sample_net_down Missing) BadOutput [])
    = (Done (JsonDict {[ "recommendation" := "analysis" ]}, 200), h').
Proof.
  destruct (recommend_posted_topic sample_py
              (sample_request POST "topic" " housing ")
              (sample_host (sample_world sample_net_down Missing) BadOutput [])
              "housing")
    as (h' & Hrun & _).
  - reflexivity.
  - reflexivity.
  - discriminate.
  - exists h'. exact Hrun.
Defined.

Lemma recommend_stored_context_witness :
  recommend_policy_endpoint sample_py (sample_request GET "topic" "housing")
    (sample_host (sample_world sample_net_down Missing) BadOutput [])
  = (Failed (AgentError (JSONDecodeError "Expecting value")),
     sample_host (sample_world sample_net_down Missing) BadOutput []).
Proof.
  apply (recommend_stored_context sample_py
           (sample_request GET "topic" "housing")
           (sample_host (sample_world sample_net_down Missing) BadOutput [])).
  left. reflexivity.
Defined.

Lemma recommend_answers_witness :
  recommend_policy_endpoint sample_py (sample_request GET "topic" "housing")
    (sample_host (sample_world sample_net_down Missing)
       (Output sample_report) [])
  = (Done (JsonDict {[ "recommendation" := "analysis" ]}, 200),
     (recommend_policy_endpoint sample_py
        (sample_request GET "topic" "housing")
        (sample_host (sample_world sample_net_down Missing)
           (Output sample_report) [])).2) ∧
  (JsonDict {[ "recommendation" := "analysis" ]}, 200).2 = 200.
Proof.
  split; [apply host_run_done; reflexivity|].
  refine (proj1 (recommend_answers sample_py
                   (sample_request GET "topic" "housing")
                   (sample_host (sample_world sample_net_down Missing)
                      (Output sample_report) [])
                   (JsonDict {[ "recommendation" := "analysis" ]}, 200)
                   (recommend_policy_endpoint sample_py
                      (sample_request GET "topic" "housing")
                      (sample_host (sample_world sample_net_down Missing)
                         (Output sample_report) [])).2 _)).
  apply host_run_done. reflexivity.
Defined.

Lemma recommend_after_analyze_witness :
  ∃ h2,
    recommend_policy_endpoint sample_py (sample_request GET "topic" "")
      (analyze_news sample_parse
         (sample_host (sample_world sample_net_down (Stored sample_batch))
            NoOutput [])).2
    = (Done (JsonDict
               {[ "recommendation" :=
                    recommendation_text
                      (sample_ai 4 "gemini-2.0-flash"
                         (policy_prompt (joined_analyses sample_report))) ]},
             200), h2) ∧
    analysis_output h2 = Output sample_report.
Proof.
  destruct (recommend_after_analyze sample_parse sample_py
              (sample_request GET "topic" "")
              (sample_host (sample_world sample_net_down (Stored sample_batch))
                 NoOutput [])
              sample_report
              (analyze_news sample_parse
                 (sample_host (sample_world sample_net_down
                                 (Stored sample_batch)) NoOutput [])).2)
    as (h2 & Hrun & _ & Ho).
  - apply host_run_done. reflexivity.
  - reflexivity.
  - exists h2. split; [exact Hrun|exact Ho].
Defined.


Lemma main_start_raises_witness :
  ∃ h',
    main sample_parse sample_py
      (sample_host (sample_world sample_net_down Corrupt) NoOutput
         ("Start " :: sample_session))
    = (Failed (AgentError (JSONDecodeError "Expecting value")), h') ∧
    analysis_output h' = NoOutput ∧ stdin h' = sample_session.
Proof.
  destruct (main_start_raises sample_parse sample_py
              (sample_host (sample_world sample_net_down Corrupt) NoOutput
                 ("Start " :: sample_session))
              "Start " sample_session (JSONDecodeError "Expecting value")
              (analyze_government_news sample_parse
                 (sample_world sample_net_down Corrupt)).2)
    as (h' & Hrun & _ & Ho & Hi).
  - reflexivity.
  - reflexivity.
  - apply run_raised. reflexivity.
  - exists h'. split; [exact Hrun|]. split; [exact Ho|exact Hi].
Defined.

Lemma main_questions_only_witness :
  ∃ h',
    main sample_parse sample_py
      (sample_host (sample_world sample_net_down Missing) NoOutput
         ("hello" :: sample_session ++ "quit" :: ["later"]))
    = (Done tt, h') ∧ stdin h' = ["later"] ∧
    requests (world h') = 0%nat ∧ ai_calls (world h') = 2%nat.
Proof.
  destruct (main_questions_only sample_parse sample_py
              (sample_host (sample_world sample_net_down Missing) NoOutput
                 ("hello" :: sample_session ++ "quit" :: ["later"]))
              "hello" sample_session "quit" ["later"] "2025")
    as (h' & Hrun & Hi & Hr & _ & _ & Hn).
  - reflexivity.
  - discriminate.
  - unfold sample_session.
    repeat (apply List.Forall_cons;
            [cbv beta; unfold quits;
             apply (bool_decide_eq_false_1 _); reflexivity|]).
    apply List.Forall_nil.
  - unfold quits. apply (bool_decide_unpack _). reflexivity.
  - reflexivity.
  - exists h'. split; [exact Hrun|]. split; [exact Hi|].
    split; [exact Hr|exact Hn].
Defined.

Lemma main_end_of_input_witness :
  ∃ h',
    main sample_parse sample_py
      (sample_host (sample_world sample_net_down (Stored sample_batch))
         NoOutput (" Start" :: sample_session))
    = (Failed (EOFError "EOF when reading a line"), h') ∧ stdin h' = [] ∧
    ai_calls (world h') = 6%nat.
Proof.
  destruct (proj2 (main_end_of_input sample_parse sample_py
                     (sample_host
                        (sample_world sample_net_down (Stored sample_batch))
                        NoOutput (" Start" :: sample_session)))
              " Start" sample_session
              (analyze_government_news sample_parse
                 (sample_world sample_net_down (Stored sample_batch))).2
              "2025")
    as (h' & Hrun & Hi & Hn).
  - reflexivity.
  - right. split; [reflexivity|].
    exists sample_report. apply run_returned. reflexivity.
  - unfold sample_session.
    repeat (apply List.Forall_cons;
            [cbv beta; unfold quits;
             apply (bool_decide_eq_false_1 _); reflexivity|]).
    apply List.Forall_nil.
  - reflexivity.
  - exists h'. split; [exact Hrun|]. split; [exact Hi|exact Hn].
Defined.

Example scenario_end_of_input :
  (main sample_parse sample_py
     (sample_host (sample_world sample_net_down Missing) NoOutput [])).1
  = Failed (EOFError "EOF when reading a line") ∧
  (main sample_parse sample_py
     (sample_host (sample_world sample_net_down Missing) NoOutput
        ("hello" :: sample_session))).1
  = Failed (EOFError "EOF when reading a line") ∧
  (main sample_parse sample_py
     (sample_host (sample_world sample_net_down Corrupt) NoOutput
        ("start" :: sample_session))).1
  = Failed (AgentError (JSONDecodeError "Expecting value")).
Proof. repeat split. Qed.

Example scenario_session_output :
  stdout (main sample_parse sample_py
            (sample_host (sample_world sample_net_down Missing) NoOutput
               ["hello"; "What changed?"; "  "; "quit"])).2
  = [ OutActivate; OutCommandPrompt;
      OutAskPrompt; OutProcessing; OutResponse; OutAnswer "analysis";
      OutDashes;
      OutAskPrompt;
      OutAskPrompt; OutGoodbye ].
Proof. reflexivity. Qed.
